(** * Nexus revenue ledger: attribution, withdrawals and CSV import

    A shallow embedding of the accounting core of [src/indel.tsx]: the
    [DataManager] store, the revenue computations of [AdminRevenue],
    [SubDashboard] and [SubMusic], the withdrawal handler [handleWithdraw],
    the withdrawal history of [SubEarnings], the settings form of
    [AdminSettings] and the batch importer [processCSV]; then the traffic
    simulation [simulateTraffic], the login and the routes of [App], the
    user management of [AdminUsers], the overview [AdminDashboard], the
    distribution form [handleDistribute] and the channel binding [bind].

    Modelling conventions.
    - Where only the shape of a computation matters (which records are read,
      summed, filtered, stored), a JavaScript [number] is an exact rational
      ([Q]).  The withdrawal path, where rounding, overflow, NaN and the
      [null] that JSON writes for them decide, is modelled a second time
      over binary64 values in the module [IEEE], with the rendering of the
      dashboard apart from the press of the button.
    - A JavaScript string is a list of 8-bit characters; white space and
      letter case are those of ASCII, so the built-ins are those of
      JavaScript on ASCII strings, and the properties that depend on [trim]
      or [toLowerCase] are stated for ASCII text.
    - The store ([localStorage] behind [DataManager]) is a record [DB]; every
      [db.getX()] reads a field and every [db.setX(v)] replaces it.
    - Clock readings ([Date.now()], [new Date()]) and [Math.random()] are
      inputs: a handler receives them as arguments.  A date is kept as the
      clock reading it was rendered from (milliseconds), whose order is the
      order of its ISO rendering.
    - [parseFloat] is a parameter of the importer.  Where it answers NaN the
      store keeps [null] (JSON has no NaN), which the arithmetic of the
      revenue reads as 0; such a value is the number 0 here. *)

From Stdlib Require Import List Bool Arith Lia Ascii String NArith ZArith QArith Lqa.
From Stdlib Require Import DecimalString Sorted Qround SpecFloat.
Import ListNotations.

(** ** JavaScript built-ins used by the program *)

Module JS.

Definition str := list ascii.

(** String literals of the source. *)
Definition lit (s : string) : str := list_ascii_of_string s.

Definition number := Q.

(** [a === b] on strings. *)
Fixpoint str_eqb (a b : str) : bool :=
  match a, b with
  | [], [] => true
  | x :: a', y :: b' => Ascii.eqb x y && str_eqb a' b'
  | _, _ => false
  end.

(** [!s] for a string: true exactly for the empty string. *)
Definition is_empty (s : str) : bool :=
  match s with [] => true | _ :: _ => false end.

(** White space removed by [String.prototype.trim] (ASCII part): TAB, LF, VT,
    FF, CR and SPACE. *)
Definition isSpace (c : ascii) : bool :=
  let n := nat_of_ascii c in
  (Nat.leb 9 n && Nat.leb n 13) || Nat.eqb n 32.

Fixpoint trimStart (s : str) : str :=
  match s with
  | [] => []
  | c :: r => if isSpace c then trimStart r else s
  end.

Definition trimEnd (s : str) : str := rev (trimStart (rev s)).

Definition trim (s : str) : str := trimEnd (trimStart s).

(** [s.split(sep)] for a one-character separator: never the empty array. *)
Fixpoint split (sep : ascii) (s : str) : list str :=
  match s with
  | [] => [[]]
  | c :: r =>
      if Ascii.eqb c sep then [] :: split sep r
      else match split sep r with
           | [] => [[c]]
           | h :: t => (c :: h) :: t
           end
  end.

Definition lowerChar (c : ascii) : ascii :=
  let n := nat_of_ascii c in
  if Nat.leb 65 n && Nat.leb n 90 then ascii_of_nat (n + 32) else c.

Definition toLowerCase (s : str) : str := map lowerChar s.

Fixpoint startsWith (s p : str) : bool :=
  match p, s with
  | [], _ => true
  | _ :: _, [] => false
  | y :: p', x :: s' => Ascii.eqb x y && startsWith s' p'
  end.

(** [s.includes(sub)]: [sub] occurs somewhere in [s]. *)
Fixpoint includes (s sub : str) : bool :=
  startsWith s sub ||
  match s with
  | [] => false
  | _ :: r => includes r sub
  end.

(** Decimal rendering of a non-negative integer in a template literal. *)
Definition decimal (n : N) : str := lit (NilZero.string_of_uint (N.to_uint n)).

(** [a < b] and [Math.max(a, b)] on numbers. *)
Definition less (a b : number) : bool := negb (Qle_bool b a).

Definition Math_max (a b : number) : number := if Qle_bool a b then b else a.

(** [xs.reduce((acc, x) => acc + f(x), 0)]. *)
Definition sumBy {A : Type} (f : A -> number) (xs : list A) : number :=
  fold_left (fun acc x => acc + f x) xs 0.

End JS.

Import JS.

(** ** Data model (the interfaces of the source) *)

Inductive Role := admin | user.

Definition Role_eqb (a b : Role) : bool :=
  match a, b with
  | admin, admin | user, user => true
  | _, _ => false
  end.

Inductive Platform := youtube | tiktok.

Inductive DistStatus := success | failed.

Inductive WithdrawalStatus := pending | completed.

Module User.

Record t := mk {
  id : str;
  username : str;
  password : option str;
  role : Role;
  ratio : number;
  createdAt : N
}.

End User.

Module Channel.

Record t := mk {
  id : str;
  userId : str;
  platform : Platform;
  identifier : str;
  name : str
}.

End Channel.

Module Distribution.

Record t := mk {
  id : str;
  songId : str;
  userId : str;
  distributedAt : N;
  status : DistStatus;
  views : number
}.

Definition with_status (s : DistStatus) (d : t) : t :=
  mk (id d) (songId d) (userId d) (distributedAt d) s (views d).

End Distribution.

Module Withdrawal.

Record t := mk {
  id : str;
  userId : str;
  amount : number;
  date : N;
  status : WithdrawalStatus
}.

End Withdrawal.

Module AppSettings.

Record t := mk {
  globalPricePer1k : number;
  platformFee : number
}.

End AppSettings.

(** One reading of the host: what [Date.now()], [Math.random()] (already
    rendered as [toString(36).substr(2, 5)]) and [new Date()] return. *)
Record Tick := mkTick {
  Date_now : N;
  Math_random : str;
  new_Date : N
}.

(** ** The store behind [DataManager] *)

Record DB := mkDB {
  getUsers : list User.t;
  getChannels : list Channel.t;
  getDistributions : list Distribution.t;
  getWithdrawals : list Withdrawal.t;
  getSettings : AppSettings.t
}.

Definition setUsers (v : list User.t) (db : DB) : DB :=
  mkDB v (getChannels db) (getDistributions db) (getWithdrawals db) (getSettings db).

Definition setChannels (v : list Channel.t) (db : DB) : DB :=
  mkDB (getUsers db) v (getDistributions db) (getWithdrawals db) (getSettings db).

Definition setDistributions (v : list Distribution.t) (db : DB) : DB :=
  mkDB (getUsers db) (getChannels db) v (getWithdrawals db) (getSettings db).

Definition setWithdrawals (v : list Withdrawal.t) (db : DB) : DB :=
  mkDB (getUsers db) (getChannels db) (getDistributions db) v (getSettings db).

Definition setSettings (v : AppSettings.t) (db : DB) : DB :=
  mkDB (getUsers db) (getChannels db) (getDistributions db) (getWithdrawals db) v.

Definition DEFAULT_USERS (loaded : N) : list User.t :=
  [ User.mk (lit "u_admin") (lit "admin") (Some (lit "123456")) admin 0 loaded;
    User.mk (lit "u_test1") (lit "test1") (Some (lit "123456")) user 75 loaded;
    User.mk (lit "u_test2") (lit "test2") (Some (lit "123456")) user 80 loaded ].

Definition DEFAULT_SETTINGS : AppSettings.t :=
  AppSettings.mk (3 # 100) 0.

(** The store of a fresh installation: every key absent, so every getter
    answers its default. *)
Definition fresh_DB (loaded : N) : DB :=
  mkDB (DEFAULT_USERS loaded) [] [] [] DEFAULT_SETTINGS.

(** ** Attribution: [AdminRevenue], [exportExcel], [SubDashboard], [SubMusic] *)

Module Attribution.

Definition notAdmin (u : User.t) : bool := negb (Role_eqb (User.role u) admin).

Definition distsOf (u : User.t) (dists : list Distribution.t) : list Distribution.t :=
  filter (fun d => str_eqb (Distribution.userId d) (User.id u)) dists.

(** A row of the revenue table: [views], [gross] and [net] of one user. *)
Record RevenueRow := mkRow {
  row_user : User.t;
  row_views : number;
  row_gross : number;
  row_net : number
}.

Definition revenueRow (dists : list Distribution.t) (settings : AppSettings.t)
    (u : User.t) : RevenueRow :=
  let uDists := distsOf u dists in
  let views := sumBy Distribution.views uDists in
  let gross := (views / 1000) * AppSettings.globalPricePer1k settings in
  let net := gross * (User.ratio u / 100) in
  mkRow u views gross net.

Definition AdminRevenue (db : DB) : list RevenueRow :=
  let users := filter notAdmin (getUsers db) in
  let dists := getDistributions db in
  let settings := getSettings db in
  map (revenueRow dists settings) users.

(** A line of the exported report, cell by cell, before the numbers are
    printed ([toFixed(4)], the percent signs). *)
Record ExportLine := mkLine {
  col_User : str;
  col_Ratio : number;
  col_TotalViews : number;
  col_GrossRevenue : number;
  col_PlatformFee : number;
  col_NetRevenue : number
}.

Definition exportExcel (db : DB) : list ExportLine :=
  let users := filter notAdmin (getUsers db) in
  let dists := getDistributions db in
  let settings := getSettings db in
  map (fun u =>
         let uDists := distsOf u dists in
         let views := sumBy Distribution.views uDists in
         let gross := (views / 1000) * AppSettings.globalPricePer1k settings in
         let net := gross * (User.ratio u / 100) in
         mkLine (User.username u) (User.ratio u) views gross
                (AppSettings.platformFee settings) net)
      users.

(** What [SubDashboard] computes when it renders for [user]. *)
Record Dashboard := mkDashboard {
  totalViews : number;
  revenue : number;
  withdrawn : number;
  balance : number
}.

Definition withdrawalsOf (u : User.t) (ws : list Withdrawal.t) : list Withdrawal.t :=
  filter (fun w => str_eqb (Withdrawal.userId w) (User.id u)) ws.

Definition SubDashboard (db : DB) (u : User.t) : Dashboard :=
  let settings := getSettings db in
  let dists := distsOf u (getDistributions db) in
  let totalViews := sumBy Distribution.views dists in
  let revenue :=
    (totalViews / 1000) * AppSettings.globalPricePer1k settings * (User.ratio u / 100) in
  let withdrawals := withdrawalsOf u (getWithdrawals db) in
  let withdrawn := sumBy Withdrawal.amount withdrawals in
  let balance := Math_max 0 (revenue - withdrawn) in
  mkDashboard totalViews revenue withdrawn balance.

(** [SubMusic]: the revenue shown next to each distribution of [user]. *)
Definition SubMusic (db : DB) (u : User.t) : list (Distribution.t * number) :=
  let dists := distsOf u (getDistributions db) in
  let settings := getSettings db in
  map (fun d =>
         (d, (Distribution.views d / 1000) * AppSettings.globalPricePer1k settings
             * (User.ratio u / 100)))
      dists.

End Attribution.

(** ** Withdrawals: [handleWithdraw] and [SubEarnings] *)

Module Withdrawals.

Import Attribution.

Definition Minimum_withdrawal : str := lit "Minimum withdrawal is $10".
Definition Withdrawal_submitted : str := lit "Withdrawal request submitted.".

(** [handleWithdraw] is a closure of one rendering of [SubDashboard]: it
    uses the [balance] of that rendering, reads the ledger again when it
    appends, and answers with the text it passes to [alert]. *)
Definition handleWithdraw (u : User.t) (view : Dashboard) (db : DB) (now : Tick)
    : DB * str :=
  if less (balance view) 10 then (db, Minimum_withdrawal)
  else
    let w := Withdrawal.mk (lit "w_" ++ decimal (Date_now now)) (User.id u)
                           (balance view) (new_Date now) pending in
    (setWithdrawals (getWithdrawals db ++ [w]) db, Withdrawal_submitted).

(** The page is rendered from the store and the button is pressed: the
    request as one step on the store (the page reloads after a success, so
    the next request renders again). *)
Definition requestWithdrawal (db : DB) (u : User.t) (now : Tick) : DB * str :=
  handleWithdraw u (SubDashboard db u) db now.

(** [SubEarnings] lists the user's withdrawals in the order of the ledger. *)
Definition SubEarnings (db : DB) (u : User.t) : list Withdrawal.t :=
  withdrawalsOf u (getWithdrawals db).

End Withdrawals.

(** ** Batch import: [processCSV] of [AdminUsers] *)

Module BatchImport.

Local Open Scope nat_scope.

(** What [setImportStatus] receives: the success message with its two counts,
    [Successfully imported n users & m channels], or the message of the
    exception, [Line n invalid format]. *)
Inductive ImportStatus :=
| Successfully_imported (users channels : nat)
| Line_invalid_format (line : nat).

(** The two arrays the loop fills, and the number of identifiers it has
    generated so far (each one consumes a reading of the host). *)
Record Batch := mkBatch {
  newUsers : list User.t;
  newChannels : list Channel.t;
  generated : nat
}.

Definition comma : ascii := ","%char.
Definition newline : ascii := "010"%char.

(** The first row is taken for a header when its lower-case form contains
    [username]. *)
Definition startIdx (lines : list str) : nat :=
  if includes (toLowerCase (nth 0 lines [])) (lit "username") then 1 else 0.

Definition byName (username : str) (u : User.t) : bool :=
  str_eqb (User.username u) username.

(** [currentUsers.find(..) || newUsers.find(..)]. *)
Definition findUser (currentUsers newUsers : list User.t) (username : str)
    : option User.t :=
  match find (byName username) currentUsers with
  | Some u => Some u
  | None => find (byName username) newUsers
  end.

Section Host.

(** [parseFloat] of the host, and its readings, one per generated id. *)
Variable parseFloat : str -> number.
Variable host : nat -> Tick.

(** The body of the loop for the line at index [i]: [inl] is the batch after
    the iteration, [inr n] the exception [Line n invalid format]. *)
Definition row (currentUsers : list User.t) (i : nat) (raw : str) (b : Batch)
    : Batch + nat :=
  let line := trim raw in
  if is_empty line then inl b
  else
    let parts := split comma line in
    if Nat.ltb (List.length parts) 5 then inr (i + 1)
    else
      let cells := map trim parts in
      let username := nth 0 cells [] in
      let password := nth 1 cells [] in
      let ratio := nth 2 cells [] in
      let cName := nth 3 cells [] in
      let cId := nth 4 cells [] in
      let '(u, b1) :=
        match findUser currentUsers (newUsers b) username with
        | Some u => (u, b)
        | None =>
            let t := host (generated b) in
            let u := User.mk (lit "u_" ++ decimal (Date_now t) ++ lit "_" ++ Math_random t)
                             username (Some password) user (parseFloat ratio)
                             (new_Date t) in
            (u, mkBatch (newUsers b ++ [u]) (newChannels b) (S (generated b)))
        end in
      let t := host (generated b1) in
      let c := Channel.mk (lit "c_" ++ decimal (Date_now t) ++ lit "_" ++ Math_random t)
                          (User.id u)
                          (if startsWith cId (lit "UC") then youtube else tiktok)
                          cId cName in
      inl (mkBatch (newUsers b1) (newChannels b1 ++ [c]) (S (generated b1))).

(** [for (let i = ...; i < lines.length; i++)] over the lines from index [i]
    on; [inr n] is the exception [Line n invalid format] leaving the loop. *)
Fixpoint rows (currentUsers : list User.t) (i : nat) (lines : list str) (b : Batch)
    : Batch + nat :=
  match lines with
  | [] => inl b
  | raw :: rest =>
      match row currentUsers i raw b with
      | inl b' => rows currentUsers (S i) rest b'
      | inr n => inr n
      end
  end.

Definition linesOf (csvContent : str) : list str := split newline (trim csvContent).

(** How the [try] block ends: after the loop the two arrays are appended to
    the stored ones and the counts are reported; the exception skips that
    and is reported by the [catch] clause, the store being as it was. *)
Definition finish (db : DB) (r : Batch + nat) : DB * ImportStatus :=
  match r with
  | inl b =>
      let db1 := setUsers (getUsers db ++ newUsers b) db in
      let db2 := setChannels (getChannels db1 ++ newChannels b) db1 in
      (db2, Successfully_imported (List.length (newUsers b)) (List.length (newChannels b)))
  | inr n => (db, Line_invalid_format n)
  end.

(** [processCSV]: the new store and the import status it sets. *)
Definition processCSV (db : DB) (csvContent : str) : DB * ImportStatus :=
  let lines := linesOf csvContent in
  let start := startIdx lines in
  let currentUsers := getUsers db in
  finish db (rows currentUsers start (skipn start lines) (mkBatch [] [] 0)).

End Host.

End BatchImport.

(** ** Rate configuration: [AdminSettings] *)

Module AdminSettings.

(** The form starts from the stored settings. *)
Definition initial (db : DB) : AppSettings.t := getSettings db.

(** [onChange] of the price input, given what [parseFloat] made of the text:
    the only field of the form. *)
Definition onChange (settings : AppSettings.t) (price : number) : AppSettings.t :=
  AppSettings.mk price (AppSettings.platformFee settings).

(** [save]: the form's settings are written to the store as they are. *)
Definition save (db : DB) (settings : AppSettings.t) : DB :=
  setSettings settings db.

End AdminSettings.

(** ** Traffic: [simulateTraffic] of [DataManager] *)

Module Traffic.

(** [Math.floor] on numbers. *)
Definition Math_floor (q : number) : number := inject_Z (Qfloor q).

Definition with_views (views : number) (d : Distribution.t) : Distribution.t :=
  Distribution.mk (Distribution.id d) (Distribution.songId d) (Distribution.userId d)
                  (Distribution.distributedAt d) (Distribution.status d) views.

(** The callback of [dists.map], threaded through the array: [random k] is
    what the [k]-th call of [Math.random()] returns.  A distribution takes
    one reading, and a second one when the first exceeds 0.7. *)
Fixpoint bump (random : nat -> number) (k : nat) (dists : list Distribution.t)
    : list Distribution.t :=
  match dists with
  | [] => []
  | d :: rest =>
      if less (7 # 10) (random k)
      then with_views (Distribution.views d + Math_floor (random (S k) * 50) + 1) d
           :: bump random (S (S k)) rest
      else d :: bump random (S k) rest
  end.

Definition simulateTraffic (random : nat -> number) (db : DB) : DB :=
  let dists := getDistributions db in
  match dists with
  | [] => db
  | _ :: _ => setDistributions (bump random 0 dists) db
  end.

End Traffic.

(** ** Login: [handleLogin] of [LoginScreen] and of [App], the routes *)

Module App.

Definition Invalid_Credentials : str := lit "Invalid Credentials. Try admin/123456".

(** [u.username === username && u.password === password]; a user without a
    password matches no typed password. *)
Definition credentials (username password : str) (u : User.t) : bool :=
  str_eqb (User.username u) username &&
  match User.password u with
  | Some p => str_eqb p password
  | None => false
  end.

(** [handleLogin] of [LoginScreen]: the user handed to [onLogin], or the
    error it sets. *)
Definition LoginScreen_handleLogin (db : DB) (username password : str) : User.t + str :=
  let users := getUsers db in
  match find (credentials username password) users with
  | Some u => inl u
  | None => inr Invalid_Credentials
  end.











End App.

(** ** User management: [handleDelete], [handleRatioChange], [filtered] *)

Module AdminUsers.

Definition with_ratio (ratio : number) (u : User.t) : User.t :=
  User.mk (User.id u) (User.username u) (User.password u) (User.role u) ratio
          (User.createdAt u).

(** The handlers work on [users], the list the page holds, write the result
    to the store and keep it as the new list of the page.  [confirm] is the
    answer to the confirmation dialog. *)
Definition handleDelete (confirm : bool) (users : list User.t) (id : str) (db : DB)
    : DB * list User.t :=
  if confirm then
    let newUsers := filter (fun u => negb (str_eqb (User.id u) id)) users in
    (setUsers newUsers db, newUsers)
  else (db, users).

Definition handleRatioChange (users : list User.t) (id : str) (newRatio : number)
    (db : DB) : DB * list User.t :=
  let newUsers :=
    map (fun u => if str_eqb (User.id u) id then with_ratio newRatio u else u) users in
  (setUsers newUsers db, newUsers).

(** The rows of the table for the text of the search box. *)
Definition filtered (users : list User.t) (search : str) : list User.t :=
  filter (fun u => negb (Role_eqb (User.role u) admin) &&
                   includes (toLowerCase (User.username u)) (toLowerCase search))
         users.

(** The estimated revenue shown in a row of the table. *)
Definition revenue (db : DB) (u : User.t) : number :=
  let dists :=
    filter (fun d => str_eqb (Distribution.userId d) (User.id u)) (getDistributions db) in
  let views := sumBy Distribution.views dists in
  (views / 1000) * AppSettings.globalPricePer1k (getSettings db) * (User.ratio u / 100).

End AdminUsers.

(** ** The admin's overview: [AdminDashboard] *)

Module AdminDashboard.

Record Stats := mkStats {
  totalViews : number;
  totalRevenue : number;
  todayRevenue : number;
  pendingPayout : number;
  activeCreators : nat
}.

Definition stats (db : DB) : Stats :=
  let users := filter Attribution.notAdmin (getUsers db) in
  let distributions := getDistributions db in
  let settings := getSettings db in
  let totalViews := sumBy Distribution.views distributions in
  let totalRevenue := (totalViews / 1000) * AppSettings.globalPricePer1k settings in
  let todayRevenue := totalRevenue * (15 # 100) in
  let pendingPayout := totalRevenue * (8 # 10) in
  mkStats totalViews totalRevenue todayRevenue pendingPayout (List.length users).

End AdminDashboard.

(** ** Distribution: [handleDistribute] and [toggleUser] *)

Module Song.

Record t := mk {
  id : str;
  title : str;
  description : str;
  tags : list str;
  uploadDate : N;
  fileSize : str
}.

End Song.

Module AdminDistribution.

(** The form: [meta] and the chosen file, of which only the rendered size in
    megabytes is used. *)
Record Meta := mkMeta {
  title : str;
  description : str;
  tags : str
}.

Definition Missing_fields : str := lit "Missing fields".

(** [toggleUser]: the new selection. *)
Definition toggleUser (prev : list str) (id : str) : list str :=
  if existsb (str_eqb id) prev
  then filter (fun u => negb (str_eqb u id)) prev
  else prev ++ [id].

(** [selectedUsers.map(uid => ...)]: the [k]-th recipient reads the clock
    [host k] and the random number [random k]. *)
Fixpoint newDists (host : nat -> Tick) (random : nat -> number) (k : nat)
    (songId : str) (selectedUsers : list str) : list Distribution.t :=
  match selectedUsers with
  | [] => []
  | uid :: rest =>
      Distribution.mk (lit "d_" ++ decimal (Date_now (host k)) ++ lit "_" ++ uid)
                      songId uid (new_Date (host k)) success
                      (Traffic.Math_floor (random k * 1000))
      :: newDists host random (S k) songId rest
  end.

(** [handleDistribute], with the delayed part run: the stored songs and the
    store after it, and the text of the alert when it refuses.  [now] is the
    clock when the song is made. *)
Definition handleDistribute (meta : Meta) (file : option str)
    (selectedUsers : list str) (now : Tick) (host : nat -> Tick)
    (random : nat -> number) (songs : list Song.t) (db : DB)
    : list Song.t * DB * option str :=
  if is_empty (title meta) || Nat.eqb (List.length selectedUsers) 0
  then (songs, db, Some Missing_fields)
  else
    let newSong :=
      Song.mk (lit "s_" ++ decimal (Date_now now)) (title meta) (description meta)
              (map trim (split ","%char (tags meta))) (new_Date now)
              (match file with
               | Some megabytes => megabytes ++ lit "MB"
               | None => lit "0MB"
               end) in
    let dists := newDists host random 0 (Song.id newSong) selectedUsers in
    (songs ++ [newSong], setDistributions (getDistributions db ++ dists) db, None).

End AdminDistribution.

(** ** Channels of a user: [bind] of [SubChannels] *)

Module SubChannels.

(** The list the page holds when it is opened. *)
Definition channelsOf (u : User.t) (db : DB) : list Channel.t :=
  filter (fun c => str_eqb (Channel.userId c) (User.id u)) (getChannels db).

(** [bind]: the store and the list of the page after it. *)
Definition bind (u : User.t) (channels : list Channel.t) (platform : Platform)
    (identifier : str) (now : Tick) (db : DB) : DB * list Channel.t :=
  if is_empty identifier then (db, channels)
  else
    let name :=
      match platform with
      | youtube => lit "YT Channel (" ++ identifier ++ lit ")"
      | tiktok => lit "@" ++ identifier
      end in
    let newChannel :=
      Channel.mk (lit "c_" ++ decimal (Date_now now)) (User.id u) platform identifier
                 name in
    (setChannels (getChannels db ++ [newChannel]) db, channels ++ [newChannel]).

End SubChannels.

(** ** The withdrawal path over IEEE doubles and the JSON store

    The exact numbers above leave out what doubles and the store do to the
    amounts of the withdrawal path: rounding, overflow to infinity, NaN, and
    [JSON.stringify] writing [null] for a number that is not finite.  This
    module follows them: a number in memory is a binary64 value (the
    specification of the Standard Library, rounding to nearest even), a
    number in the store is what [JSON.parse] reads back. *)

Module IEEE.

Definition double := spec_float.

Definition prec : Z := 53.
Definition emax : Z := 1024.

Definition add : double -> double -> double := SFadd prec emax.
Definition sub : double -> double -> double := SFsub prec emax.
Definition mul : double -> double -> double := SFmul prec emax.
Definition div : double -> double -> double := SFdiv prec emax.

(** [a < b]: false when either side is NaN. *)
Definition less (a b : double) : bool := SFltb a b.

(** A whole-number literal, and a literal written as a quotient of whole
    numbers ([0.03] is [quotient 3 100]): the nearest double. *)
Definition ofZ (n : Z) : double := binary_normalize prec emax n 0 false.

Definition quotient (n d : Z) : double := div (ofZ n) (ofZ d).

(** [Math.max(a, b)]: NaN when either is NaN, and [+0] above [-0]. *)
Definition Math_max (a b : double) : double :=
  match SFcompare a b with
  | None => S754_nan
  | Some Lt => b
  | Some Gt => a
  | Some Eq =>
      match a, b with
      | S754_zero sa, S754_zero sb => S754_zero (sa && sb)
      | _, _ => a
      end
  end.


(** A number as the store holds it. *)
Inductive json := null | num (x : double).

(** What [DataManager.set] leaves of a number: [JSON.stringify] writes
    [null] for NaN and the infinities and [0] for [-0]; a finite number is
    read back as it was. *)
Definition stringify (x : double) : json :=
  match x with
  | S754_zero _ => num (S754_zero false)
  | S754_finite _ _ _ => num x
  | S754_infinity _ | S754_nan => null
  end.

(** A stored number in an arithmetic expression: [null] counts as [+0]. *)
Definition ToNumber (j : json) : double :=
  match j with
  | null => S754_zero false
  | num x => x
  end.

Module User.

Record t := mk {
  id : str;
  username : str;
  password : option str;
  role : Role;
  ratio : json;
  createdAt : N
}.

End User.

Module Distribution.

Record t := mk {
  id : str;
  songId : str;
  userId : str;
  distributedAt : N;
  status : DistStatus;
  views : json
}.

End Distribution.

Module Withdrawal.

Record t := mk {
  id : str;
  userId : str;
  amount : json;
  date : N;
  status : WithdrawalStatus
}.

End Withdrawal.

Module AppSettings.

Record t := mk {
  globalPricePer1k : json;
  platformFee : json
}.

End AppSettings.

Record DB := mkDB {
  getUsers : list User.t;
  getChannels : list Channel.t;
  getDistributions : list Distribution.t;
  getWithdrawals : list Withdrawal.t;
  getSettings : AppSettings.t
}.

Definition setWithdrawals (v : list Withdrawal.t) (db : DB) : DB :=
  mkDB (getUsers db) (getChannels db) (getDistributions db) v (getSettings db).

(** [xs.reduce((acc, x) => acc + f(x), 0)] over stored numbers. *)
Definition sumBy {A : Type} (f : A -> json) (xs : list A) : double :=
  fold_left (fun acc x => add acc (ToNumber (f x))) xs (ofZ 0).

(** What one rendering of [SubDashboard] computes. *)
Record Dashboard := mkDashboard {
  totalViews : double;
  revenue : double;
  withdrawn : double;
  balance : double
}.

Definition distsOf (u : User.t) (dists : list Distribution.t) : list Distribution.t :=
  filter (fun d => str_eqb (Distribution.userId d) (User.id u)) dists.

Definition withdrawalsOf (u : User.t) (ws : list Withdrawal.t) : list Withdrawal.t :=
  filter (fun w => str_eqb (Withdrawal.userId w) (User.id u)) ws.

Definition SubDashboard (db : DB) (u : User.t) : Dashboard :=
  let settings := getSettings db in
  let dists := distsOf u (getDistributions db) in
  let totalViews := sumBy Distribution.views dists in
  let revenue :=
    mul (mul (div totalViews (ofZ 1000))
             (ToNumber (AppSettings.globalPricePer1k settings)))
        (div (ToNumber (User.ratio u)) (ofZ 100)) in
  let withdrawals := withdrawalsOf u (getWithdrawals db) in
  let withdrawn := sumBy Withdrawal.amount withdrawals in
  let balance := Math_max (ofZ 0) (sub revenue withdrawn) in
  mkDashboard totalViews revenue withdrawn balance.

(** [handleWithdraw] belongs to one rendering [view] of the dashboard: it
    tests and withdraws the balance of that rendering, whatever the store
    [db] holds when the button is pressed, and the store keeps the amount as
    [stringify] leaves it. *)
Definition handleWithdraw (u : User.t) (view : Dashboard) (db : DB) (now : Tick)
    : DB * str :=
  if less (balance view) (ofZ 10) then (db, Withdrawals.Minimum_withdrawal)
  else
    let w := Withdrawal.mk (lit "w_" ++ decimal (Date_now now)) (User.id u)
                           (stringify (balance view)) (new_Date now) pending in
    (setWithdrawals (getWithdrawals db ++ [w]) db, Withdrawals.Withdrawal_submitted).

End IEEE.

(** * Vocabulary of the properties *)

(** ** What the properties speak about *)

Module Props.

Import Attribution Withdrawals BatchImport.

(** The views of the user's distributions whose outcome is [s]: with
    [success], the aggregation the specification asks for. *)
Definition hasStatus (s : DistStatus) (d : Distribution.t) : bool :=
  match Distribution.status d, s with
  | success, success | failed, failed => true
  | _, _ => false
  end.

Definition viewsWith (s : DistStatus) (db : DB) (u : User.t) : number :=
  sumBy Distribution.views (filter (hasStatus s) (distsOf u (getDistributions db))).

(** The store with the outcome of every distribution rewritten by [f]. *)
Definition restatus (f : Distribution.t -> DistStatus) (db : DB) : DB :=
  setDistributions
    (map (fun d => Distribution.with_status (f d) d) (getDistributions db)) db.

(** The store with the platform fee replaced. *)
Definition withPlatformFee (fee : number) (db : DB) : DB :=
  setSettings (AppSettings.mk (AppSettings.globalPricePer1k (getSettings db)) fee) db.

(** The withdrawal an accepted request appends. *)
Definition requested (db : DB) (u : User.t) (now : Tick) : Withdrawal.t :=
  Withdrawal.mk (lit "w_" ++ decimal (Date_now now)) (User.id u)
                (balance (SubDashboard db u)) (new_Date now) pending.




(** The ranges the specification asks the settings to respect. *)
Definition inRange (s : AppSettings.t) : Prop :=
  0 <= AppSettings.globalPricePer1k s /\
  0 <= AppSettings.platformFee s /\ AppSettings.platformFee s <= 100.

(** [sub] occurs in [s]. *)
Definition infix (sub s : str) : Prop := exists pre post, s = pre ++ sub ++ post.

(** The trimmed cells of a row, and the first of them: the user name. *)
Definition cellsOf (raw : str) : list str := map trim (split comma (trim raw)).

Definition nameOf (raw : str) : str := nth 0 (cellsOf raw) [].

Definition blank (raw : str) : bool := is_empty (trim raw).

Definition notBlank (raw : str) : bool := negb (blank raw).

(** A row is malformed when it is not blank and has fewer than 5 fields. *)
Definition malformed (raw : str) : bool :=
  negb (blank raw) && Nat.ltb (List.length (split comma (trim raw))) 5.

(** The label occurs in the row, in any letter case. *)
Definition labelled (raw : str) : Prop := infix (lit "username") (toLowerCase raw).

(** The first cell of the row is the label, in any letter case. *)
Definition firstCellIsLabel (raw : str) : bool :=
  str_eqb (toLowerCase (nameOf raw)) (lit "username").

(** [c] is the channel of the row [raw] for the user [u]. *)
Definition channelFor (raw : str) (u : User.t) (c : Channel.t) : Prop :=
  Channel.userId c = User.id u /\
  Channel.name c = nth 3 (cellsOf raw) [] /\
  Channel.identifier c = nth 4 (cellsOf raw) [].

(** [c] is the channel of the row [raw] for the user its name resolves to:
    the stored user of that name, else the created one. *)
Definition resolves (currentUsers created : list User.t) (raw : str) (c : Channel.t)
    : Prop :=
  exists u, findUser currentUsers created (nameOf raw) = Some u /\ channelFor raw u c.

(** What holds of the batch after the non-blank rows [seen]. *)
Record Merged (currentUsers : list User.t) (seen : list str) (b : Batch) : Prop := {
  merged_once : NoDup (map User.username (newUsers b));
  merged_names : forall n,
      In n (map User.username (newUsers b)) <->
      In n (map nameOf seen) /\ ~ In n (map User.username currentUsers);
  merged_channels : Forall2 (resolves currentUsers (newUsers b)) seen (newChannels b)
}.

End Props.

(** ** Stores, hosts and payloads of the examples *)

Module Samples.

Import Attribution Withdrawals BatchImport.

Definition test1 : User.t :=
  User.mk (lit "u_test1") (lit "test1") (Some (lit "123456")) user 75 0.

Definition dist1 (outcome : DistStatus) (views : number) : Distribution.t :=
  Distribution.mk (lit "d_1_u_test1") (lit "s_1") (lit "u_test1") 1 outcome views.

(** The fresh store after one successful distribution to [test1] that has
    gathered [views] views: the examples of the specification. *)
Definition storeWithViews (views : number) : DB :=
  setDistributions [dist1 success views] (fresh_DB 0).




(** A stand-in for [parseFloat] in the examples: the value of the leading
    decimal digits. *)
Fixpoint leadingDigits (acc : N) (s : str) : N :=
  match s with
  | [] => acc
  | c :: r =>
      let n := N_of_ascii c in
      if (N.leb 48 n && N.leb n 57)%bool
      then leadingDigits (10 * acc + (n - 48))%N r
      else acc
  end.

Definition sampleParseFloat (s : str) : number := inject_Z (Z.of_N (leadingDigits 0 s)).

Definition sampleHost (k : nat) : Tick :=
  mkTick (1700000000000 + N.of_nat k) (lit "k3x9q") (1700000000000 + N.of_nat k).


(** Two rows naming the new user [bob]. *)
Definition twoRowsForBob : str :=
  lit "bob,pw,50,Chan1,UC123
bob,pw,50,Chan2,tt_bob".

Definition headerThenBob : str :=
  lit "Username,Password,Ratio,Channel,ChannelId
bob,pw,50,Chan1,UC123".

Definition bobOnly : str := lit "bob,pw,50,Chan1,UC123".

(** One data row whose channel name is [username]. *)
Definition channelNamedUsername : str := lit "alice,pw,50,username,UC1".

End Samples.

(** ** What the further properties speak about *)

Module MoreProps.

Import Attribution Withdrawals BatchImport Traffic AdminUsers AdminDistribution
       SubChannels.

(** [Math.random()] answers a number from 0 (included) up to 1 (excluded). *)
Definition unitInterval (random : nat -> number) : Prop :=
  forall k, 0 <= random k /\ random k < 1.

(** How one pass of the traffic changes a distribution: not at all, or its
    views grow by a whole number from 1 to 50. *)
Definition bumped (d d' : Distribution.t) : Prop :=
  d' = d \/
  exists z : Z, (0 <= z <= 49)%Z /\
                d' = with_views (Distribution.views d + inject_Z z + 1) d.

(** No distribution of the ledger has failed. *)
Definition noFailed (dists : list Distribution.t) : Prop :=
  Forall (fun d => Distribution.status d = success) dists.

(** One action on the store: a pass of the traffic, a distribution, a
    withdrawal request, an import, a save of the settings form, a deletion,
    a change of ratio or a binding of a channel.  The page of a withdrawal
    request may have been rendered at any earlier time, so its [view] is
    arbitrary; the other pages show the store. *)
Inductive step : DB -> DB -> Prop :=
| step_traffic (random : nat -> number) (db : DB) :
    unitInterval random -> step db (simulateTraffic random db)
| step_distribute (meta : Meta) (file : option str) (selectedUsers : list str)
    (now : Tick) (host : nat -> Tick) (random : nat -> number)
    (songs : list Song.t) (db : DB) :
    unitInterval random ->
    step db (snd (fst (handleDistribute meta file selectedUsers now host random songs db)))
| step_withdraw (u : User.t) (view : Dashboard) (db : DB) (now : Tick) :
    step db (fst (handleWithdraw u view db now))
| step_import (parseFloat : str -> number) (host : nat -> Tick) (db : DB)
    (csvContent : str) :
    step db (fst (processCSV parseFloat host db csvContent))
| step_save (db : DB) (price : number) :
    step db (AdminSettings.save db (AdminSettings.onChange (AdminSettings.initial db) price))
| step_delete (confirm : bool) (db : DB) (id : str) :
    step db (fst (handleDelete confirm (getUsers db) id db))
| step_ratio (db : DB) (id : str) (newRatio : number) :
    step db (fst (handleRatioChange (getUsers db) id newRatio db))
| step_bind (u : User.t) (platform : Platform) (identifier : str) (now : Tick)
    (db : DB) :
    step db (fst (bind u (channelsOf u db) platform identifier now db)).

(** The stores the program can be in: a fresh one, and what actions make of
    them. *)
Inductive reachable : DB -> Prop :=
| reachable_fresh (loaded : N) : reachable (fresh_DB loaded)
| reachable_step (db db' : DB) : reachable db -> step db db' -> reachable db'.

(** The user's typed credentials are those of [u]. *)
Definition hasCredentials (username password : str) (u : User.t) : Prop :=
  User.username u = username /\ User.password u = Some password.

(** The platform [processCSV] infers for an identifier. *)
Definition inferred (identifier : str) : Platform :=
  if startsWith identifier (lit "UC") then youtube else tiktok.

(** What holds of every user and channel an import makes. *)
Definition ordinary (u : User.t) : Prop :=
  User.role u = user /\ exists p, User.password u = Some p.

Definition wellInferred (c : Channel.t) : Prop :=
  Channel.platform c = inferred (Channel.identifier c).

(** The sum of the views of the rows of the revenue table. *)
Definition viewsOfRows (rows : list RevenueRow) : number := sumBy row_views rows.

(** The views of the ledger are whole numbers from 0 and add up to at most
    2^53: the range in which the additions of the source are exact. *)
Definition wholeViews (db : DB) : Prop :=
  Forall (fun d => exists n : Z, (0 <= n)%Z /\ Distribution.views d = inject_Z n)
         (getDistributions db) /\
  sumBy Distribution.views (getDistributions db) <= inject_Z (2 ^ 53).

(** Every distribution is held by exactly one user of the revenue table. *)
Definition allHeld (db : DB) : Prop :=
  NoDup (map User.id (filter notAdmin (getUsers db))) /\
  Forall (fun d => In (Distribution.userId d)
                      (map User.id (filter notAdmin (getUsers db))))
         (getDistributions db).

End MoreProps.

(** ** Further examples *)

Module MoreSamples.

(** Readings of [Math.random()]: 0.9 at even calls, 0.5 at odd ones. *)
Definition sampleRandom (k : nat) : number :=
  if Nat.even k then 9 # 10 else 1 # 2.

(** A form with a title and two recipients. *)
Definition sampleMeta : AdminDistribution.Meta :=
  AdminDistribution.mkMeta (lit "First Song") (lit "demo") (lit "pop, demo").

Definition twoRecipients : list str := [lit "u_test1"; lit "u_test2"].

(** The fresh store after a distribution to the two recipients and a change
    of the price to 1000. *)
Definition richStore : DB :=
  let db1 :=
    snd (fst (AdminDistribution.handleDistribute sampleMeta None twoRecipients
                (mkTick 5 [] 5) Samples.sampleHost sampleRandom [] (fresh_DB 0))) in
  AdminSettings.save db1 (AdminSettings.onChange (AdminSettings.initial db1) 1000).

End MoreSamples.

(** ** ASCII text *)

Module TextProps.

(** Every character of the string is an ASCII character.  On such strings
    [trim] and [toLowerCase] above are those of JavaScript. *)
Definition isASCII (s : str) : bool :=
  forallb (fun c => Nat.ltb (nat_of_ascii c) 128) s.

End TextProps.

(** ** Stores of the examples over doubles *)

Module IEEESamples.

Import IEEE.

Definition tenant (ratio : Z) : User.t :=
  User.mk (lit "u_test1") (lit "test1") (Some (lit "123456")) user
          (num (ofZ ratio)) 0.

(** The default tenant [test1], ratio 75. *)
Definition test1 : User.t := tenant 75.

(** A store with the tenant [u], one successful distribution to it of
    [views] views, the given price per 1000 views and the given earlier
    withdrawals. *)
Definition store (u : User.t) (views : Z) (price : double) (ws : list Withdrawal.t)
    : DB :=
  mkDB [u] []
       [Distribution.mk (lit "d_1_u_test1") (lit "s_1") (lit "u_test1") 1 success
                        (num (ofZ views))]
       ws
       (AppSettings.mk (num price) (num (ofZ 0))).

(** The default price, 0.03. *)
Definition defaultPrice : double := quotient 3 100.

Definition earlier (amount : double) : Withdrawal.t :=
  Withdrawal.mk (lit "w_1") (lit "u_test1") (num amount) 1 pending.

(** The page is rendered when the distribution has 1,000,000 views; when the
    button is pressed the traffic has brought it to 2,000,000. *)
Definition rendered : DB := store test1 1000000 defaultPrice [].
Definition current : DB := store test1 2000000 defaultPrice [].

(** A price of 1e308, typed into the settings form. *)
Definition hugePrice : double := ofZ (10 ^ 308).

End IEEESamples.

(** * Properties *)

(** ** Facts about the built-ins *)

Module JSFacts.

Lemma str_eqb_refl (a : str) : str_eqb a a = true.
Proof.
  induction a as [|c a IH]; simpl; [reflexivity|].
  now rewrite Ascii.eqb_refl.
Qed.

Lemma str_eqb_eq (a b : str) : str_eqb a b = true <-> a = b.
Proof.
  split; [|intros ->; apply str_eqb_refl].
  revert b; induction a as [|x a IH]; intros [|y b]; simpl; try discriminate; auto.
  intros H; apply andb_prop in H as [Hc Hr].
  apply Ascii.eqb_eq in Hc; subst; f_equal; auto.
Qed.

Lemma str_eqb_neq (a b : str) : str_eqb a b = false <-> a <> b.
Proof.
  rewrite <- str_eqb_eq. destruct (str_eqb a b); split; congruence.
Qed.

Lemma less_lt (a b : number) : less a b = true <-> a < b.
Proof.
  unfold less. rewrite negb_true_iff, <- not_true_iff_false, Qle_bool_iff.
  split; [apply Qnot_le_lt | apply Qlt_not_le].
Qed.

Lemma less_ge (a b : number) : less a b = false <-> b <= a.
Proof.
  unfold less. now rewrite negb_false_iff, Qle_bool_iff.
Qed.

Lemma fold_plus_shift {A : Type} (f : A -> number) (xs : list A) (a : number) :
  fold_left (fun acc x => acc + f x) xs a == a + sumBy f xs.
Proof.
  unfold sumBy. revert a; induction xs as [|x xs IH]; intros a; simpl.
  - lra.
  - rewrite IH, (IH (0 + f x)). lra.
Qed.

Lemma sumBy_cons {A : Type} (f : A -> number) (x : A) (xs : list A) :
  sumBy f (x :: xs) == f x + sumBy f xs.
Proof.
  unfold sumBy at 1. simpl. rewrite fold_plus_shift. lra.
Qed.

(** A [reduce] reads its elements through [f] only. *)
Lemma fold_plus_ext {A B : Type} (f : A -> number) (g : B -> number)
    (xs : list A) (ys : list B) (a : number) :
  map f xs = map g ys ->
  fold_left (fun acc x => acc + f x) xs a = fold_left (fun acc y => acc + g y) ys a.
Proof.
  revert ys a; induction xs as [|x xs IH]; intros [|y ys] a; simpl; try discriminate; auto.
  intros H; injection H as H1 H2. rewrite H1. now apply IH.
Qed.

Example split_keeps_empty_fields :
  split ","%char (lit "a,b,,c") = [lit "a"; lit "b"; lit ""; lit "c"].
Proof. reflexivity. Qed.

Example split_of_empty : split ","%char (lit "") = [lit ""].
Proof. reflexivity. Qed.

Example trim_both_ends : trim (lit "  a b
 ") = lit "a b".
Proof. reflexivity. Qed.

Example decimal_of_clock : decimal 1730 = lit "1730".
Proof. reflexivity. Qed.

Example includes_any_case :
  includes (toLowerCase (lit "My UserName,x")) (lit "username") = true.
Proof. reflexivity. Qed.

End JSFacts.

(** ** Attribution *)

Module AttributionFacts.

Import JSFacts Attribution Props Samples.

Lemma distsOf_restatus (f : Distribution.t -> DistStatus) (u : User.t)
    (ds : list Distribution.t) :
  map Distribution.views
      (distsOf u (map (fun d => Distribution.with_status (f d) d) ds))
  = map Distribution.views (distsOf u ds).
Proof.
  induction ds as [|d ds IH]; simpl; [reflexivity|].
  destruct (str_eqb (Distribution.userId d) (User.id u)); simpl; now rewrite ?IH.
Qed.

Lemma views_restatus (f : Distribution.t -> DistStatus) (u : User.t)
    (ds : list Distribution.t) :
  sumBy Distribution.views
        (distsOf u (map (fun d => Distribution.with_status (f d) d) ds))
  = sumBy Distribution.views (distsOf u ds).
Proof.
  unfold sumBy. apply fold_plus_ext, distsOf_restatus.
Qed.

Lemma views_by_status (ds : list Distribution.t) :
  sumBy Distribution.views ds
  == sumBy Distribution.views (filter (hasStatus success) ds)
     + sumBy Distribution.views (filter (hasStatus failed) ds).
Proof.
  induction ds as [|d ds IH].
  - reflexivity.
  - pose proof (sumBy_cons Distribution.views d ds) as Hd.
    pose proof (sumBy_cons Distribution.views d (filter (hasStatus success) ds)) as Hs.
    pose proof (sumBy_cons Distribution.views d (filter (hasStatus failed) ds)) as Hf.
    assert (Hc : (hasStatus success d = true /\ hasStatus failed d = false) \/
                 (hasStatus success d = false /\ hasStatus failed d = true))
      by (unfold hasStatus; destruct (Distribution.status d); auto).
    simpl filter. destruct Hc as [[-> ->]|[-> ->]]; lra.
Qed.

(** C1, as the specification states it, fails: a distribution whose outcome
    is [failed] is counted.  With one failed distribution of 1,000,000 views
    the dashboard of [test1] shows those views, a revenue and a balance of
    22.5, where the success-only aggregation is 0. *)
Lemma failed_distribution_is_counted :
  let db := setDistributions [dist1 failed 1000000] (fresh_DB 0) in
  viewsWith success db test1 == 0 /\
  ~ totalViews (SubDashboard db test1) == viewsWith success db test1 /\
  balance (SubDashboard db test1) == 45 # 2 /\
  map row_views (AdminRevenue db) = [1000000; 0].
Proof.
  cbv zeta. repeat split; try reflexivity.
  intros H. vm_compute in H. discriminate.
Qed.

(** C1 (amended): the attribution never reads the outcome of a distribution.
    Rewriting the outcomes in any way leaves the dashboard (views, revenue,
    withdrawn, balance), the revenue table and the exported report as they
    are; the aggregated views are those of the user's successful
    distributions plus those of the failed ones. *)
Theorem attribution_ignores_outcome :
  forall (db : DB) (u : User.t) (f : Distribution.t -> DistStatus),
    SubDashboard (restatus f db) u = SubDashboard db u /\
    AdminRevenue (restatus f db) = AdminRevenue db /\
    exportExcel (restatus f db) = exportExcel db /\
    totalViews (SubDashboard db u)
    == viewsWith success db u + viewsWith failed db u.
Proof.
  intros db u f. repeat split.
  - unfold SubDashboard, restatus; simpl. now rewrite views_restatus.
  - unfold AdminRevenue, restatus; simpl. apply map_ext.
    intros v. unfold revenueRow. now rewrite views_restatus.
  - unfold exportExcel, restatus; simpl. apply map_ext.
    intros v. now rewrite views_restatus.
  - apply views_by_status.
Qed.

(** C10: the platform fee enters no revenue and no balance.  Two stores that
    differ in [platformFee] only give the same dashboard, the same revenue
    table and the same per-distribution revenue to every user; in the
    exported report the fee fills its own column as it is and the other
    columns are the same. *)
Theorem platformFee_not_in_revenue :
  forall (db : DB) (fee : number) (u : User.t),
    SubDashboard (withPlatformFee fee db) u = SubDashboard db u /\
    AdminRevenue (withPlatformFee fee db) = AdminRevenue db /\
    SubMusic (withPlatformFee fee db) u = SubMusic db u /\
    map col_PlatformFee (exportExcel (withPlatformFee fee db))
    = map (fun _ => fee) (exportExcel db) /\
    map (fun l => (col_User l, col_Ratio l, col_TotalViews l,
                   col_GrossRevenue l, col_NetRevenue l))
        (exportExcel (withPlatformFee fee db))
    = map (fun l => (col_User l, col_Ratio l, col_TotalViews l,
                     col_GrossRevenue l, col_NetRevenue l))
          (exportExcel db).
Proof.
  intros db fee u. repeat split; try reflexivity.
  - unfold exportExcel, withPlatformFee; simpl. now rewrite !map_map.
  - unfold exportExcel, withPlatformFee; simpl. now rewrite !map_map.
Qed.

End AttributionFacts.

(** ** Withdrawals *)

Module WithdrawalFacts.

Import JSFacts Attribution Withdrawals Props Samples.


Lemma request_refused (db : DB) (u : User.t) (now : Tick) :
  balance (SubDashboard db u) < 10 ->
  requestWithdrawal db u now = (db, Minimum_withdrawal).
Proof.
  intros H. unfold requestWithdrawal, handleWithdraw.
  apply less_lt in H. now rewrite H.
Qed.

Lemma request_accepted (db : DB) (u : User.t) (now : Tick) :
  10 <= balance (SubDashboard db u) ->
  requestWithdrawal db u now
  = (setWithdrawals (getWithdrawals db ++ [requested db u now]) db,
     Withdrawal_submitted).
Proof.
  intros H. unfold requestWithdrawal, handleWithdraw.
  apply less_ge in H. now rewrite H.
Qed.

Lemma messages_differ : Withdrawal_submitted <> Minimum_withdrawal.
Proof. discriminate. Qed.





End WithdrawalFacts.

(** ** Rate configuration *)

Module SettingsFacts.

Import AdminSettings Props.

(** C8, as the specification states it, fails: a negative price is outside
    the ranges, and saving it replaces the stored configuration. *)
Lemma negative_price_is_saved :
  let s := onChange (initial (fresh_DB 0)) (-1) in
  ~ inRange s /\
  getSettings (save (fresh_DB 0) s) = s /\
  getSettings (save (fresh_DB 0) s) <> getSettings (fresh_DB 0).
Proof.
  cbv zeta. split; [|split].
  - intros [H _]. vm_compute in H. now apply H.
  - reflexivity.
  - discriminate.
Qed.

(** C8 (amended): saving checks nothing and cannot fail.  Whatever the
    configuration of the form, [save] stores it as it is and leaves the rest
    of the store alone; the form changes the price only, so the platform fee
    stays the stored one. *)
Theorem save_stores_any_settings :
  forall (db : DB) (s : AppSettings.t) (price : number),
    getSettings (save db s) = s /\
    getUsers (save db s) = getUsers db /\
    getChannels (save db s) = getChannels db /\
    getDistributions (save db s) = getDistributions db /\
    getWithdrawals (save db s) = getWithdrawals db /\
    AppSettings.globalPricePer1k (onChange (initial db) price) = price /\
    AppSettings.platformFee (onChange (initial db) price)
    = AppSettings.platformFee (getSettings db).
Proof.
  intros db s price. repeat split.
Qed.

End SettingsFacts.

(** ** Batch import *)

Module ImportFacts.

Import JSFacts BatchImport Props TextProps Samples.

Local Open Scope nat_scope.

(** *** Strings: prefixes, infixes and lower case *)

Lemma startsWith_spec (s p : str) :
  startsWith s p = true <-> exists post, s = p ++ post.
Proof.
  revert s; induction p as [|y p IH]; intros s; simpl.
  - split; [intros _; now exists s | intros _; now destruct s].
  - destruct s as [|x s].
    + split; [discriminate | intros [post H]; discriminate].
    + cbn [startsWith]. rewrite andb_true_iff, Ascii.eqb_eq, IH. split.
      * intros [-> [post ->]]. now exists post.
      * intros [post H]. injection H as -> ->. split; [reflexivity | now exists post].
Qed.

Lemma includes_spec (s sub : str) : includes s sub = true <-> infix sub s.
Proof.
  unfold infix. induction s as [|c s IH].
  - cbn [includes]. rewrite orb_false_r, startsWith_spec. split.
    + intros [post H]. now exists [], post.
    + intros [pre [post H]]. destruct pre; [now exists post | discriminate].
  - cbn [includes]. rewrite orb_true_iff, startsWith_spec, IH. split.
    + intros [[post H]|[pre [post H]]].
      * now exists [], post.
      * exists (c :: pre), post. simpl. now rewrite H.
    + intros [[|x pre] [post H]].
      * left. now exists post.
      * right. injection H as _ H. now exists pre, post.
Qed.

Lemma infix_trans (a b c : str) : infix a b -> infix b c -> infix a c.
Proof.
  intros [p1 [q1 ->]] [p2 [q2 ->]]. exists (p2 ++ p1), (q1 ++ q2).
  now rewrite <- !app_assoc.
Qed.

Lemma trimStart_suffix (s : str) : exists pre, s = pre ++ trimStart s.
Proof.
  induction s as [|c s [pre IH]]; simpl.
  - now exists [].
  - destruct (isSpace c).
    + exists (c :: pre). simpl. now rewrite <- IH.
    + now exists [].
Qed.

Lemma trimEnd_prefix (s : str) : exists post, s = trimEnd s ++ post.
Proof.
  unfold trimEnd. destruct (trimStart_suffix (rev s)) as [pre H].
  exists (rev pre). rewrite <- rev_app_distr, <- H. now rewrite rev_involutive.
Qed.

Lemma trim_infix (s : str) : infix (trim s) s.
Proof.
  unfold trim. destruct (trimStart_suffix s) as [pre H].
  destruct (trimEnd_prefix (trimStart s)) as [post H'].
  exists pre, post. now rewrite <- H'.
Qed.

Lemma split_nonempty (c : ascii) (s : str) : split c s <> [].
Proof.
  destruct s as [|x s]; simpl; [discriminate|].
  destruct (Ascii.eqb x c); [discriminate|].
  destruct (split c s); discriminate.
Qed.

Lemma split_head_prefix (c : ascii) (s : str) :
  exists post, s = nth 0 (split c s) [] ++ post.
Proof.
  induction s as [|x s [post IH]]; simpl.
  - now exists [].
  - destruct (Ascii.eqb x c).
    + now exists (x :: s).
    + destruct (split c s) as [|h t] eqn:E.
      * now destruct (split_nonempty c s).
      * exists post. simpl in *. now rewrite <- IH.
Qed.

Lemma toLowerCase_infix (a b : str) :
  infix a b -> infix (toLowerCase a) (toLowerCase b).
Proof.
  intros [pre [post ->]]. exists (toLowerCase pre), (toLowerCase post).
  unfold toLowerCase. now rewrite !map_app.
Qed.

(** *** The cells of a row *)

Lemma nameOf_infix (raw : str) : infix (nameOf raw) raw.
Proof.
  unfold nameOf, cellsOf.
  apply infix_trans with (b := trim raw); [|apply trim_infix].
  destruct (split_head_prefix comma (trim raw)) as [post H].
  apply infix_trans with (b := nth 0 (split comma (trim raw)) []).
  - destruct (split comma (trim raw)) as [|h t]; simpl; apply trim_infix.
  - exists [], post. exact H.
Qed.

(** *** Looking a user up by name *)

Lemma find_byName_some (n : str) (l : list User.t) (u : User.t) :
  find (byName n) l = Some u -> In u l /\ User.username u = n.
Proof.
  intros H. apply find_some in H as [Hin Hn]. split; [assumption|].
  now apply str_eqb_eq.
Qed.

Lemma find_byName_none (n : str) (l : list User.t) :
  find (byName n) l = None <-> ~ In n (map User.username l).
Proof.
  induction l as [|u l IH]; simpl.
  - tauto.
  - unfold byName at 1. destruct (str_eqb (User.username u) n) eqn:E.
    + apply str_eqb_eq in E. split; [discriminate | intros H; exfalso; auto].
    + apply str_eqb_neq in E. rewrite IH. tauto.
Qed.

Lemma find_app_some {A : Type} (f : A -> bool) (l l' : list A) (x : A) :
  find f l = Some x -> find f (l ++ l') = Some x.
Proof.
  induction l as [|a l IH]; simpl; [discriminate|].
  destruct (f a); auto.
Qed.

Lemma find_app_none {A : Type} (f : A -> bool) (l l' : list A) :
  find f l = None -> find f (l ++ l') = find f l'.
Proof.
  induction l as [|a l IH]; simpl; [reflexivity|].
  destruct (f a); [discriminate | auto].
Qed.


(** *** The loop *)

Section Loop.

Variable parseFloat : str -> number.
Variable host : nat -> Tick.
Variable currentUsers : list User.t.

Local Abbreviation row := (BatchImport.row parseFloat host currentUsers).
Local Abbreviation rows := (BatchImport.rows parseFloat host currentUsers).

Lemma row_blank (i : nat) (raw : str) (b : Batch) :
  blank raw = true -> row i raw b = inl b.
Proof.
  unfold BatchImport.row, blank. now intros ->.
Qed.


Lemma row_wellformed (i : nat) (raw : str) (b : Batch) :
  blank raw = false -> malformed raw = false ->
  (exists u c,
      findUser currentUsers (newUsers b) (nameOf raw) = Some u /\
      channelFor raw u c /\
      row i raw b = inl (mkBatch (newUsers b) (newChannels b ++ [c])
                                 (S (generated b)))) \/
  (exists u c,
      findUser currentUsers (newUsers b) (nameOf raw) = None /\
      User.username u = nameOf raw /\ User.role u = user /\
      channelFor raw u c /\
      row i raw b = inl (mkBatch (newUsers b ++ [u]) (newChannels b ++ [c])
                                 (S (S (generated b))))).
Proof.
  intros Hb Hm. unfold malformed in Hm. rewrite Hb in Hm. simpl in Hm.
  unfold BatchImport.row. unfold blank in Hb. rewrite Hb, Hm.
  fold (cellsOf raw). fold (nameOf raw).
  destruct (findUser currentUsers (newUsers b) (nameOf raw)) as [u|] eqn:E.
  - left. eexists u, _. split; [reflexivity|]. split; [|reflexivity].
    repeat split.
  - right. eexists _, _. split; [reflexivity|].
    split; [|split; [|split; [|reflexivity]]]; try reflexivity.
    repeat split.
Qed.



Lemma resolves_more (created : list User.t) (u : User.t) (raw : str) (c : Channel.t) :
  resolves currentUsers created raw c ->
  resolves currentUsers (created ++ [u]) raw c.
Proof.
  intros [v [Hf Hc]]. exists v. split; [|exact Hc].
  unfold findUser in *. destruct (find (byName (nameOf raw)) currentUsers); [exact Hf|].
  now apply find_app_some.
Qed.

Lemma Merged_step (seen : list str) (b : Batch) (i : nat) (raw : str) :
  Merged currentUsers seen b -> blank raw = false -> malformed raw = false ->
  exists b', row i raw b = inl b' /\ Merged currentUsers (seen ++ [raw]) b'.
Proof.
  intros [Hnd Hnames Hch] Hb Hm.
  destruct (row_wellformed i raw b Hb Hm)
    as [[u [c [Hf [Hc Hrow]]]]|[u [c [Hf [Hu [_ [Hc Hrow]]]]]]];
    eexists; (split; [exact Hrow|]); constructor; simpl.
  - exact Hnd.
  - intros n. rewrite Hnames, map_app, in_app_iff. simpl. split; [tauto|].
    intros [[H|[H|[]]] Hn]; [tauto|]. subst n. split; [|exact Hn].
    apply find_byName_none in Hn. unfold findUser in Hf. rewrite Hn in Hf.
    apply find_byName_some in Hf as [Hin Hname].
    apply (Hnames (nameOf raw)). apply in_map_iff. now exists u.
  - apply Forall2_app; [exact Hch|]. constructor; [|constructor].
    now exists u.
  - unfold findUser in Hf.
    destruct (find (byName (nameOf raw)) currentUsers) eqn:Hcur; [discriminate|].
    rewrite map_app. simpl. apply NoDup_app; [exact Hnd | repeat constructor; auto |].
    intros n Hin [H|[]]. subst n. rewrite Hu in Hin.
    apply find_byName_none in Hf. contradiction.
  - unfold findUser in Hf.
    destruct (find (byName (nameOf raw)) currentUsers) eqn:Hcur; [discriminate|].
    apply find_byName_none in Hcur.
    intros n. rewrite !map_app, !in_app_iff, Hnames. simpl. rewrite Hu.
    split; [|tauto]. intros [H|[H|[]]]; [tauto|]. subst n. tauto.
  - apply Forall2_app.
    + eapply Forall2_impl; [|exact Hch]. intros r ch. apply resolves_more.
    + constructor; [|constructor]. exists u. split; [|exact Hc].
      unfold findUser in *.
      destruct (find (byName (nameOf raw)) currentUsers); [discriminate|].
      rewrite (find_app_none _ _ _ Hf). simpl. unfold byName.
      now rewrite Hu, str_eqb_refl.
Qed.

Lemma rows_Merged (ls : list str) :
  forall (i : nat) (seen : list str) (b : Batch),
    Merged currentUsers seen b -> Forall (fun l => malformed l = false) ls ->
    exists b',
      rows i ls b = inl b' /\ Merged currentUsers (seen ++ filter notBlank ls) b'.
Proof.
  induction ls as [|raw rest IH]; intros i seen b HM Hall; simpl.
  - exists b. rewrite app_nil_r. now split.
  - inversion Hall as [|? ? Hraw Hrest]; subst. unfold notBlank at 1.
    destruct (blank raw) eqn:Hb; simpl.
    + rewrite (row_blank i raw b Hb). now apply IH.
    + destruct (@Merged_step seen b i raw HM Hb Hraw) as [b1 [Hrow HM1]].
      rewrite Hrow.
      destruct (IH (S i) _ _ HM1 Hrest) as [b' [Hrows HM']].
      exists b'. split; [exact Hrows|]. now rewrite <- app_assoc in HM'.
Qed.

End Loop.

(** *** The header row *)

Lemma startIdx_labelled (lines : list str) :
  (labelled (nth 0 lines []) -> startIdx lines = 1) /\
  (~ labelled (nth 0 lines []) -> startIdx lines = 0).
Proof.
  unfold startIdx, labelled.
  destruct (includes (toLowerCase (nth 0 lines [])) (lit "username")) eqn:E.
  - split; [reflexivity|]. intros H. exfalso. apply H. now apply includes_spec.
  - split; [|reflexivity]. intros H. apply includes_spec in H. congruence.
Qed.

Lemma firstCellIsLabel_labelled (raw : str) :
  firstCellIsLabel raw = true -> labelled raw.
Proof.
  unfold firstCellIsLabel, labelled. intros H. apply str_eqb_eq in H.
  rewrite <- H. apply toLowerCase_infix, nameOf_infix.
Qed.

(** C7, as the specification states it, fails: in the one-row payload
    [alice,pw,50,username,UC1] the first cell is [alice], yet the row is
    taken for a header and nothing is imported. *)
Lemma data_row_taken_for_header :
  let csv := channelNamedUsername in
  firstCellIsLabel (nth 0 (linesOf csv) []) = false /\
  malformed (nth 0 (linesOf csv) []) = false /\
  startIdx (linesOf csv) = 1 /\
  processCSV sampleParseFloat sampleHost (fresh_DB 0) csv
  = (fresh_DB 0, Successfully_imported 0 0).
Proof.
  cbv zeta. repeat split.
Qed.

(** C7 (amended): for a payload of ASCII text, the first row is skipped as a
    header exactly when the label [username] occurs somewhere in it, in any
    letter case, which is so whenever its first cell is the label; a first
    row in which the label does not occur goes through the loop as the row
    of index 0.  (Outside ASCII the trimming and the folding of letter case
    of the source do more than those modelled here.) *)
Theorem header_when_label_occurs :
  forall (parseFloat : str -> number) (host : nat -> Tick) (db : DB)
         (csvContent : str),
    isASCII csvContent = true ->
    let lines := linesOf csvContent in
    let first := nth 0 lines [] in
    (firstCellIsLabel first = true -> labelled first) /\
    (labelled first ->
       startIdx lines = 1 /\
       processCSV parseFloat host db csvContent
       = finish db (rows parseFloat host (getUsers db) 1 (tl lines) (mkBatch [] [] 0))) /\
    (~ labelled first ->
       startIdx lines = 0 /\
       processCSV parseFloat host db csvContent
       = finish db (rows parseFloat host (getUsers db) 0 lines (mkBatch [] [] 0))).
Proof.
  intros parseFloat host db csvContent _ lines first.
  destruct (startIdx_labelled lines) as [Hyes Hno].
  split; [apply firstCellIsLabel_labelled|].
  split; intros H; unfold processCSV; fold lines.
  - rewrite (Hyes H). split; [reflexivity|]. now destruct lines.
  - rewrite (Hno H). split; reflexivity.
Qed.

Lemma header_when_label_occurs_witness :
  (let csv := headerThenBob in
   isASCII csv = true /\
   firstCellIsLabel (nth 0 (linesOf csv) []) = true /\
   startIdx (linesOf csv) = 1 /\
   snd (processCSV sampleParseFloat sampleHost (fresh_DB 0) csv)
   = Successfully_imported 1 1) /\
  (let csv := bobOnly in
   isASCII csv = true /\
   ~ labelled (nth 0 (linesOf csv) []) /\
   startIdx (linesOf csv) = 0 /\
   snd (processCSV sampleParseFloat sampleHost (fresh_DB 0) csv)
   = Successfully_imported 1 1).
Proof.
  split; cbv zeta.
  - set (csv := headerThenBob).
    assert (A : isASCII csv = true) by reflexivity.
    assert (H : firstCellIsLabel (nth 0 (linesOf csv) []) = true) by reflexivity.
    destruct (header_when_label_occurs sampleParseFloat sampleHost (fresh_DB 0) csv A)
      as [Hcell [Hyes _]].
    destruct (Hyes (Hcell H)) as [Hs Hp].
    split; [exact A|]. split; [exact H|]. split; [exact Hs|]. rewrite Hp. reflexivity.
  - set (csv := bobOnly).
    assert (H : ~ labelled (nth 0 (linesOf csv) [])).
    { intros L. apply includes_spec in L. vm_compute in L. discriminate. }
    assert (A : isASCII csv = true) by reflexivity.
    destruct (header_when_label_occurs sampleParseFloat sampleHost (fresh_DB 0) csv A)
      as [_ [_ Hno]].
    destruct (Hno H) as [Hs Hp].
    split; [exact A|]. split; [exact H|]. split; [exact Hs|]. rewrite Hp. reflexivity.
Defined.

(** *** Malformed rows *)



(** *** Resolution of users by name *)



End ImportFacts.

(** ** Traffic *)

Module TrafficFacts.

Import JSFacts Attribution Withdrawals Traffic Props MoreProps Samples MoreSamples.

Lemma floor_of_random (r : number) (n : Z) :
  (0 < n)%Z -> 0 <= r -> r < 1 ->
  (0 <= Qfloor (r * inject_Z n) <= n - 1)%Z.
Proof.
  intros Hn H0 H1.
  assert (Hq : 0 < inject_Z n)
    by (change (inject_Z 0 < inject_Z n); rewrite <- Zlt_Qlt; exact Hn).
  split.
  - rewrite <- (Qfloor_Z 0). apply Qfloor_resp_le.
    apply Qmult_le_0_compat; [exact H0 | now apply Qlt_le_weak].
  - assert (H : inject_Z (Qfloor (r * inject_Z n)) < inject_Z n).
    { apply Qle_lt_trans with (y := r * inject_Z n); [apply Qfloor_le|].
      rewrite <- (Qmult_1_l (inject_Z n)) at 2.
      now apply Qmult_lt_compat_r. }
    rewrite <- Zlt_Qlt in H. lia.
Qed.

Lemma bump_bumped (random : nat -> number) :
  unitInterval random ->
  forall (dists : list Distribution.t) (k : nat),
    Forall2 bumped dists (bump random k dists).
Proof.
  intros Hr dists. induction dists as [|d rest IH]; intros k; simpl.
  - constructor.
  - destruct (less (7 # 10) (random k)).
    + constructor; [|apply IH]. right.
      exists (Qfloor (random (S k) * 50)). split; [|reflexivity].
      destruct (Hr (S k)) as [H0 H1].
      apply (floor_of_random (random (S k)) 50); [lia | exact H0 | exact H1].
    + constructor; [now left | apply IH].
Qed.

Lemma bumped_fields (d d' : Distribution.t) :
  bumped d d' ->
  Distribution.id d' = Distribution.id d /\
  Distribution.songId d' = Distribution.songId d /\
  Distribution.userId d' = Distribution.userId d /\
  Distribution.distributedAt d' = Distribution.distributedAt d /\
  Distribution.status d' = Distribution.status d /\
  Distribution.views d <= Distribution.views d' /\
  Distribution.views d' <= Distribution.views d + 50.
Proof.
  intros [->|[z [[Hz0 Hz1] ->]]]; simpl.
  - repeat split; lra.
  - assert (H0 : 0 <= inject_Z z)
      by (change (inject_Z 0 <= inject_Z z); rewrite <- Zle_Qle; exact Hz0).
    assert (H1 : inject_Z z <= 49)
      by (change (inject_Z z <= inject_Z 49); rewrite <- Zle_Qle; exact Hz1).
    repeat split; lra.
Qed.

Lemma simulateTraffic_bumped (random : nat -> number) (db : DB) :
  unitInterval random ->
  Forall2 bumped (getDistributions db) (getDistributions (simulateTraffic random db)).
Proof.
  intros Hr. unfold simulateTraffic.
  destruct (getDistributions db) as [|d rest] eqn:E.
  - rewrite E. constructor.
  - simpl. apply (bump_bumped random Hr (d :: rest) 0).
Qed.

Lemma simulateTraffic_frame (random : nat -> number) (db : DB) :
  getUsers (simulateTraffic random db) = getUsers db /\
  getChannels (simulateTraffic random db) = getChannels db /\
  getWithdrawals (simulateTraffic random db) = getWithdrawals db /\
  getSettings (simulateTraffic random db) = getSettings db.
Proof.
  unfold simulateTraffic. destruct (getDistributions db); repeat split.
Qed.

(** X1: a pass of the traffic keeps the ledger's shape: the same
    distributions in the same order, each one either untouched or with its
    views raised by a whole number from 1 to 50; identifiers, songs, users,
    dates and outcomes stay, and nothing else in the store changes. *)
Theorem simulateTraffic_only_raises_views :
  forall (random : nat -> number) (db : DB),
    unitInterval random ->
    let db' := simulateTraffic random db in
    Forall2 bumped (getDistributions db) (getDistributions db') /\
    Forall2 (fun d d' =>
               Distribution.id d' = Distribution.id d /\
               Distribution.songId d' = Distribution.songId d /\
               Distribution.userId d' = Distribution.userId d /\
               Distribution.distributedAt d' = Distribution.distributedAt d /\
               Distribution.status d' = Distribution.status d /\
               Distribution.views d <= Distribution.views d' /\
               Distribution.views d' <= Distribution.views d + 50)
            (getDistributions db) (getDistributions db') /\
    getUsers db' = getUsers db /\
    getChannels db' = getChannels db /\
    getWithdrawals db' = getWithdrawals db /\
    getSettings db' = getSettings db.
Proof.
  intros random db Hr db'. split; [now apply simulateTraffic_bumped|]. split.
  - eapply Forall2_impl; [|now apply simulateTraffic_bumped].
    intros d d'. apply bumped_fields.
  - apply simulateTraffic_frame.
Qed.

Lemma sampleRandom_unit : unitInterval sampleRandom.
Proof.
  intros k. unfold sampleRandom. destruct (Nat.even k); split; lra.
Qed.

Lemma simulateTraffic_only_raises_views_witness :
  unitInterval sampleRandom /\
  map Distribution.views (getDistributions (storeWithViews 2000)) = [2000] /\
  map Distribution.views
      (getDistributions (simulateTraffic sampleRandom (storeWithViews 2000)))
  = [2000 + 25 + 1] /\
  Forall2 bumped (getDistributions (storeWithViews 2000))
          (getDistributions (simulateTraffic sampleRandom (storeWithViews 2000))).
Proof.
  split; [exact sampleRandom_unit|].
  split; [reflexivity|]. split; [reflexivity|].
  exact (proj1 (simulateTraffic_only_raises_views sampleRandom (storeWithViews 2000)
                  sampleRandom_unit)).
Defined.

Lemma views_monotone (u : User.t) (l l' : list Distribution.t) :
  Forall2 (fun d d' => Distribution.userId d' = Distribution.userId d /\
                       Distribution.views d <= Distribution.views d') l l' ->
  sumBy Distribution.views (distsOf u l) <= sumBy Distribution.views (distsOf u l').
Proof.
  induction 1 as [|d d' l l' [Hu Hv] _ IH]; [apply Qle_refl|].
  unfold distsOf in *. simpl. rewrite Hu.
  destruct (str_eqb (Distribution.userId d) (User.id u)); [|exact IH].
  pose proof (sumBy_cons Distribution.views d
                (filter (fun x => str_eqb (Distribution.userId x) (User.id u)) l)).
  pose proof (sumBy_cons Distribution.views d'
                (filter (fun x => str_eqb (Distribution.userId x) (User.id u)) l')).
  lra.
Qed.

Lemma all_views_monotone (l l' : list Distribution.t) :
  Forall2 (fun d d' => Distribution.views d <= Distribution.views d') l l' ->
  sumBy Distribution.views l <= sumBy Distribution.views l'.
Proof.
  induction 1 as [|d d' l l' Hv _ IH]; [apply Qle_refl|].
  pose proof (sumBy_cons Distribution.views d l).
  pose proof (sumBy_cons Distribution.views d' l').
  lra.
Qed.

(** X2: a pass of the traffic lowers no count of views: the views on the
    dashboard of a user and the total views of the admin's overview after
    the pass are at least those before, and what the user has withdrawn is
    the same. *)
Theorem simulateTraffic_never_lowers_views :
  forall (random : nat -> number) (db : DB) (u : User.t),
    unitInterval random ->
    let db' := simulateTraffic random db in
    totalViews (SubDashboard db u) <= totalViews (SubDashboard db' u) /\
    AdminDashboard.totalViews (AdminDashboard.stats db)
    <= AdminDashboard.totalViews (AdminDashboard.stats db') /\
    withdrawn (SubDashboard db' u) = withdrawn (SubDashboard db u).
Proof.
  intros random db u Hr db'.
  destruct (simulateTraffic_frame random db) as [_ [_ [Hw _]]].
  pose proof (simulateTraffic_bumped random db Hr) as B. fold db' in B, Hw.
  split; [|split].
  - unfold SubDashboard. simpl. apply views_monotone.
    eapply Forall2_impl; [|exact B]. intros d d' Hb.
    destruct (bumped_fields d d' Hb) as (_ & _ & Hd & _ & _ & Hv & _). now split.
  - unfold AdminDashboard.stats. simpl. apply all_views_monotone.
    eapply Forall2_impl; [|exact B]. intros d d' Hb.
    now destruct (bumped_fields d d' Hb) as (_ & _ & _ & _ & _ & Hv & _).
  - unfold SubDashboard. simpl. now rewrite Hw.
Qed.

Lemma simulateTraffic_never_lowers_views_witness :
  let db := storeWithViews 1000000 in
  let db' := simulateTraffic sampleRandom db in
  unitInterval sampleRandom /\
  totalViews (SubDashboard db test1) == 1000000 /\
  totalViews (SubDashboard db' test1) == 1000026 /\
  totalViews (SubDashboard db test1) <= totalViews (SubDashboard db' test1).
Proof.
  intros db db'. split; [exact sampleRandom_unit|].
  split; [vm_compute; reflexivity|]. split; [vm_compute; reflexivity|].
  exact (proj1 (simulateTraffic_never_lowers_views sampleRandom db test1
                  sampleRandom_unit)).
Defined.

End TrafficFacts.

(** ** Distribution *)

Module DistributionFacts.

Import JSFacts Attribution Traffic AdminDistribution Props MoreProps Samples MoreSamples.

(** What [handleDistribute] makes for one recipient. *)
Lemma newDists_spec (host : nat -> Tick) (random : nat -> number) (songId : str) :
  unitInterval random ->
  forall (selectedUsers : list str) (k : nat),
    map Distribution.userId (newDists host random k songId selectedUsers)
    = selectedUsers /\
    Forall (fun d => Distribution.songId d = songId /\
                     Distribution.status d = success /\
                     exists z : Z, (0 <= z <= 999)%Z /\
                                   Distribution.views d = inject_Z z)
           (newDists host random k songId selectedUsers).
Proof.
  intros Hr sel. induction sel as [|uid rest IH]; intros k; simpl.
  - split; constructor.
  - destruct (IH (S k)) as [Hm Hf]. split; [now rewrite Hm|].
    constructor; [|exact Hf]. simpl. repeat split.
    exists (Qfloor (random k * 1000)). split; [|reflexivity].
    destruct (Hr k) as [H0 H1].
    apply (TrafficFacts.floor_of_random (random k) 1000); [lia | exact H0 | exact H1].
Qed.

(** X3: a distribution without a title or without a recipient is refused
    with [Missing fields] and changes neither the songs nor the store.
    Otherwise one song is added and, after the distributions already in the
    ledger, one distribution for each selected recipient in the order of the
    selection, each of the new song, successful, with a whole number of views
    from 0 to 999; nothing else in the store changes. *)
Theorem handleDistribute_one_per_recipient :
  forall (meta : Meta) (file : option str) (selectedUsers : list str) (now : Tick)
         (host : nat -> Tick) (random : nat -> number) (songs : list Song.t)
         (db : DB),
    unitInterval random ->
    let '(songs', db', alert) :=
      handleDistribute meta file selectedUsers now host random songs db in
    (title meta = [] \/ selectedUsers = [] ->
       songs' = songs /\ db' = db /\ alert = Some Missing_fields) /\
    (title meta <> [] -> selectedUsers <> [] ->
       alert = None /\
       exists (song : Song.t) (dists : list Distribution.t),
         songs' = songs ++ [song] /\
         Song.title song = title meta /\
         getDistributions db' = getDistributions db ++ dists /\
         map Distribution.userId dists = selectedUsers /\
         Forall (fun d => Distribution.songId d = Song.id song /\
                          Distribution.status d = success /\
                          exists z : Z, (0 <= z <= 999)%Z /\
                                        Distribution.views d = inject_Z z)
                dists /\
         getUsers db' = getUsers db /\
         getChannels db' = getChannels db /\
         getWithdrawals db' = getWithdrawals db /\
         getSettings db' = getSettings db).
Proof.
  intros meta file sel now host random songs db Hr.
  unfold handleDistribute.
  destruct (title meta) as [|c t] eqn:Et; simpl.
  - split; [intros _; repeat split | intros H; now destruct H].
  - destruct sel as [|uid rest] eqn:Es; simpl.
    + split; [intros _; repeat split | intros _ H; now destruct H].
    + split; [intros [H|H]; discriminate|]. intros _ _. split; [reflexivity|].
      destruct (newDists_spec host random (lit "s_" ++ decimal (Date_now now)) Hr
                  (uid :: rest) 0) as [Hm Hf].
      eexists _, (newDists host random 0 (lit "s_" ++ decimal (Date_now now))
                           (uid :: rest)).
      split; [reflexivity|]. split; [reflexivity|]. split; [reflexivity|].
      split; [exact Hm|]. split; [exact Hf|]. repeat split.
Qed.

Lemma handleDistribute_one_per_recipient_witness :
  unitInterval sampleRandom /\
  handleDistribute sampleMeta None [] (mkTick 5 [] 5) sampleHost sampleRandom []
                   (fresh_DB 0)
  = ([], fresh_DB 0, Some Missing_fields) /\
  (let '(songs', db', alert) :=
     handleDistribute sampleMeta None twoRecipients (mkTick 5 [] 5) sampleHost
                      sampleRandom [] (fresh_DB 0) in
   alert = None /\ List.length songs' = 1%nat /\
   map Distribution.userId (getDistributions db') = twoRecipients /\
   map Distribution.views (getDistributions db') = [900; 500]).
Proof.
  split; [exact TrafficFacts.sampleRandom_unit|]. split.
  - pose proof (handleDistribute_one_per_recipient sampleMeta None [] (mkTick 5 [] 5)
                  sampleHost sampleRandom [] (fresh_DB 0)
                  TrafficFacts.sampleRandom_unit) as T.
    destruct (handleDistribute sampleMeta None [] (mkTick 5 [] 5) sampleHost
                sampleRandom [] (fresh_DB 0)) as [[songs' db'] alert].
    destruct T as [T _]. destruct (T (or_intror eq_refl)) as [-> [-> ->]].
    reflexivity.
  - pose proof (handleDistribute_one_per_recipient sampleMeta None twoRecipients
                  (mkTick 5 [] 5) sampleHost sampleRandom [] (fresh_DB 0)
                  TrafficFacts.sampleRandom_unit) as T.
    destruct (handleDistribute sampleMeta None twoRecipients (mkTick 5 [] 5)
                sampleHost sampleRandom [] (fresh_DB 0)) as [[songs' db'] alert] eqn:E.
    destruct T as [_ T].
    destruct T as [Ha _]; [discriminate | discriminate |].
    split; [exact Ha|].
    vm_compute in E. injection E as <- <- _. repeat split.
Defined.

Lemma existsb_str_eqb (id : str) (l : list str) :
  existsb (str_eqb id) l = true <-> In id l.
Proof.
  rewrite existsb_exists. split.
  - intros [x [Hin Hx]]. apply str_eqb_eq in Hx. now subst.
  - intros H. exists id. split; [exact H | apply str_eqb_refl].
Qed.

(** X4: toggling a recipient flips whether it is selected and leaves the
    others as they are; a selection without duplicates stays without
    duplicates. *)
Theorem toggleUser_flips_one :
  forall (prev : list str) (id : str),
    NoDup prev ->
    NoDup (toggleUser prev id) /\
    (In id (toggleUser prev id) <-> ~ In id prev) /\
    (forall other, other <> id ->
                   (In other (toggleUser prev id) <-> In other prev)).
Proof.
  intros prev id Hnd. unfold toggleUser.
  destruct (existsb (str_eqb id) prev) eqn:E.
  - apply existsb_str_eqb in E. split; [now apply NoDup_filter|]. split.
    + rewrite filter_In, negb_true_iff, str_eqb_neq. tauto.
    + intros other Hne. rewrite filter_In, negb_true_iff, str_eqb_neq. tauto.
  - assert (Hnot : ~ In id prev).
    { intros H. apply existsb_str_eqb in H. congruence. }
    split; [|split].
    + apply NoDup_app; [exact Hnd | repeat constructor; auto |].
      intros a Ha [H|[]]. now subst.
    + rewrite in_app_iff. simpl. tauto.
    + intros other Hne. rewrite in_app_iff. simpl. split; [|tauto].
      intros [H|[H|[]]]; [exact H | now destruct Hne].
Qed.

Lemma toggleUser_flips_one_witness :
  NoDup [lit "u_test1"] /\
  toggleUser [lit "u_test1"] (lit "u_test2") = [lit "u_test1"; lit "u_test2"] /\
  toggleUser [lit "u_test1"; lit "u_test2"] (lit "u_test1") = [lit "u_test2"] /\
  NoDup (toggleUser [lit "u_test1"] (lit "u_test2")).
Proof.
  assert (H : NoDup [lit "u_test1"]) by (repeat constructor; auto).
  split; [exact H|]. split; [reflexivity|]. split; [reflexivity|].
  exact (proj1 (toggleUser_flips_one [lit "u_test1"] (lit "u_test2") H)).
Defined.

End DistributionFacts.

(** ** Invariants of the reachable stores *)

Module ReachFacts.

Import JSFacts Attribution Withdrawals BatchImport Traffic AdminUsers
       AdminDistribution SubChannels Props MoreProps Samples MoreSamples.

Lemma processCSV_frame (parseFloat : str -> number) (host : nat -> Tick) (db : DB)
    (csvContent : str) :
  let db' := fst (processCSV parseFloat host db csvContent) in
  getDistributions db' = getDistributions db /\
  getWithdrawals db' = getWithdrawals db /\
  getSettings db' = getSettings db.
Proof.
  unfold processCSV, finish.
  destruct (rows parseFloat host (getUsers db) _ _ _); repeat split.
Qed.

Lemma handleWithdraw_cases (u : User.t) (view : Dashboard) (db : DB) (now : Tick) :
  fst (handleWithdraw u view db now) = db \/
  exists w,
    fst (handleWithdraw u view db now) = setWithdrawals (getWithdrawals db ++ [w]) db /\
    Withdrawal.status w = pending.
Proof.
  unfold handleWithdraw. destruct (less (balance view) 10); [now left|].
  right. eexists. split; reflexivity.
Qed.

Lemma requestWithdrawal_cases (db : DB) (u : User.t) (now : Tick) :
  fst (requestWithdrawal db u now) = db \/
  (10 <= balance (SubDashboard db u) /\
   fst (requestWithdrawal db u now)
   = setWithdrawals (getWithdrawals db ++ [requested db u now]) db).
Proof.
  destruct (Qlt_le_dec (balance (SubDashboard db u)) 10) as [H|H].
  - left. now rewrite (WithdrawalFacts.request_refused db u now H).
  - right. split; [exact H|].
    now rewrite (WithdrawalFacts.request_accepted db u now H).
Qed.

(** What an action does to the distributions: nothing, a pass of the
    traffic, or new successful distributions at the end. *)
Lemma step_distributions (db db' : DB) :
  step db db' ->
  getDistributions db' = getDistributions db \/
  Forall2 bumped (getDistributions db) (getDistributions db') \/
  exists dists,
    getDistributions db' = getDistributions db ++ dists /\
    Forall (fun d => Distribution.status d = success /\ 0 <= Distribution.views d)
           dists.
Proof.
  intros [random db0 Hr | meta file sel now host random songs db0 Hr | u view db0 now
          | pf host db0 csv | db0 price | confirm db0 id | db0 id r
          | u platform identifier now db0].
  - right. left.
    exact (TrafficFacts.simulateTraffic_bumped random db0 Hr).
  - unfold handleDistribute.
    destruct (is_empty (title meta) || Nat.eqb (List.length sel) 0)%bool; simpl;
      [now left|].
    right. right. eexists. split; [reflexivity|].
    destruct (DistributionFacts.newDists_spec host random
                (lit "s_" ++ decimal (Date_now now)) Hr sel 0) as [_ Hf].
    eapply Forall_impl; [|exact Hf].
    intros d (_ & Hs & z & [Hz _] & Hv). split; [exact Hs|].
    rewrite Hv. change (inject_Z 0 <= inject_Z z). now rewrite <- Zle_Qle.
  - left. destruct (handleWithdraw_cases u view db0 now) as [->|[w [-> _]]]; reflexivity.
  - left. apply (processCSV_frame pf host db0 csv).
  - now left.
  - left. unfold handleDelete. now destruct confirm.
  - now left.
  - left. unfold bind. now destruct (is_empty identifier).
Qed.

(** What an action does to the ledger of withdrawals: nothing, or one more
    pending withdrawal at the end. *)
Lemma step_withdrawals (db db' : DB) :
  step db db' ->
  getWithdrawals db' = getWithdrawals db \/
  exists w,
    getWithdrawals db' = getWithdrawals db ++ [w] /\
    Withdrawal.status w = pending.
Proof.
  intros [random db0 Hr | meta file sel now host random songs db0 Hr | u view db0 now
          | pf host db0 csv | db0 price | confirm db0 id | db0 id r
          | u platform identifier now db0].
  - left. unfold simulateTraffic. now destruct (getDistributions db0).
  - left. unfold handleDistribute.
    now destruct (is_empty (title meta) || Nat.eqb (List.length sel) 0)%bool.
  - destruct (handleWithdraw_cases u view db0 now) as [->|[w [-> H]]]; [now left|].
    right. exists w. split; [reflexivity | exact H].
  - left. apply (processCSV_frame pf host db0 csv).
  - now left.
  - left. unfold handleDelete. now destruct confirm.
  - now left.
  - left. unfold bind. now destruct (is_empty identifier).
Qed.

Lemma step_platformFee (db db' : DB) :
  step db db' ->
  AppSettings.platformFee (getSettings db') = AppSettings.platformFee (getSettings db).
Proof.
  intros [random db0 Hr | meta file sel now host random songs db0 Hr | u view db0 now
          | pf host db0 csv | db0 price | confirm db0 id | db0 id r
          | u platform identifier now db0].
  - unfold simulateTraffic. now destruct (getDistributions db0).
  - unfold handleDistribute.
    now destruct (is_empty (title meta) || Nat.eqb (List.length sel) 0)%bool.
  - destruct (handleWithdraw_cases u view db0 now) as [->|[w [-> _]]]; reflexivity.
  - now rewrite (proj2 (proj2 (processCSV_frame pf host db0 csv))).
  - reflexivity.
  - unfold handleDelete. now destruct confirm.
  - reflexivity.
  - unfold bind. now destruct (is_empty identifier).
Qed.

Lemma noFailed_views (db : DB) (u : User.t) :
  noFailed (getDistributions db) ->
  totalViews (SubDashboard db u) == viewsWith success db u.
Proof.
  intros H. unfold SubDashboard, viewsWith. simpl.
  assert (E : filter (hasStatus success) (distsOf u (getDistributions db))
              = distsOf u (getDistributions db)).
  { unfold noFailed in H. induction H as [|d l Hd _ IH]; [reflexivity|].
    unfold distsOf in *. simpl.
    destruct (str_eqb (Distribution.userId d) (User.id u)); [|exact IH].
    simpl. unfold hasStatus at 1. rewrite Hd. now rewrite IH. }
  rewrite E. reflexivity.
Qed.

(** X5: no action makes a failed distribution or a negative number of
    views: in every reachable store all distributions are successful with
    views of at least 0, so the views the dashboard adds up for a user are
    those of the user's successful distributions. *)
Theorem reachable_ledger_all_successful :
  forall db : DB,
    reachable db ->
    noFailed (getDistributions db) /\
    Forall (fun d => 0 <= Distribution.views d) (getDistributions db) /\
    forall u : User.t, totalViews (SubDashboard db u) == viewsWith success db u.
Proof.
  intros db R.
  assert (I : Forall (fun d => Distribution.status d = success /\
                               0 <= Distribution.views d) (getDistributions db)).
  { induction R as [loaded | db db' _ IH S]; [constructor|].
    destruct (step_distributions db db' S) as [E | [B | [dists [E F]]]].
    - now rewrite E.
    - clear S. revert IH. induction B as [|d d' l l' Hb _ IHB]; intros IH;
        [constructor|].
      inversion IH as [|? ? [Hs Hv] Hrest]; subst.
      destruct (TrafficFacts.bumped_fields d d' Hb) as (_ & _ & _ & _ & Hs' & Hle & _).
      constructor; [split; [congruence | lra] | now apply IHB].
    - rewrite E. apply Forall_app. now split. }
  assert (N : noFailed (getDistributions db)).
  { eapply Forall_impl; [|exact I]. now intros d [H _]. }
  split; [exact N|]. split.
  - eapply Forall_impl; [|exact I]. now intros d [_ H].
  - intros u. now apply noFailed_views.
Qed.

(** A store reached by a distribution and a pass of the traffic. *)
Lemma sample_reachable :
  reachable
    (simulateTraffic sampleRandom
       (snd (fst (handleDistribute sampleMeta None twoRecipients (mkTick 5 [] 5)
                    sampleHost sampleRandom [] (fresh_DB 0))))).
Proof.
  eapply reachable_step; [|apply step_traffic, TrafficFacts.sampleRandom_unit].
  eapply reachable_step; [apply reachable_fresh|].
  apply step_distribute, TrafficFacts.sampleRandom_unit.
Qed.

Lemma reachable_ledger_all_successful_witness :
  let db := simulateTraffic sampleRandom
              (snd (fst (handleDistribute sampleMeta None twoRecipients
                           (mkTick 5 [] 5) sampleHost sampleRandom [] (fresh_DB 0)))) in
  reachable db /\
  map Distribution.views (getDistributions db) = [900 + 25 + 1; 500 + 25 + 1] /\
  noFailed (getDistributions db) /\
  totalViews (SubDashboard db test1) == viewsWith success db test1.
Proof.
  intros db. split; [exact sample_reachable|]. split; [reflexivity|].
  destruct (reachable_ledger_all_successful db sample_reachable) as [N [_ V]].
  split; [exact N | exact (V test1)].
Defined.

(** X6: every withdrawal of a reachable store is pending, whenever the pages
    of the requests were rendered: no action completes or rejects a
    withdrawal; and an action removes none and reorders none, it leaves the
    ledger as it is or puts one withdrawal at its end. *)
Theorem reachable_withdrawals_pending :
  forall db : DB,
    reachable db ->
    Forall (fun w => Withdrawal.status w = pending) (getWithdrawals db) /\
    forall db' : DB,
      step db db' ->
      exists ws,
        getWithdrawals db' = getWithdrawals db ++ ws /\ (List.length ws <= 1)%nat.
Proof.
  intros db R. split.
  - induction R as [loaded | db db' _ IH S]; [constructor|].
    destruct (step_withdrawals db db' S) as [E | [w [E Hs]]].
    + now rewrite E.
    + rewrite E. apply Forall_app. split; [exact IH|]. now repeat constructor.
  - intros db' S. destruct (step_withdrawals db db' S) as [E | [w [E _]]].
    + exists []. rewrite E, app_nil_r. split; [reflexivity | simpl; lia].
    + exists [w]. split; [exact E | simpl; lia].
Qed.

Lemma reachable_withdrawals_pending_witness :
  let db := fst (requestWithdrawal richStore test1 (mkTick 9 [] 9)) in
  reachable db /\
  map Withdrawal.status (getWithdrawals db) = [pending] /\
  Forall (fun w => Withdrawal.status w = pending) (getWithdrawals db).
Proof.
  intros db.
  assert (R : reachable db).
  { apply reachable_step with (db := richStore); [|apply step_withdraw].
    eapply reachable_step; [|apply step_save].
    eapply reachable_step; [apply reachable_fresh|].
    apply step_distribute, TrafficFacts.sampleRandom_unit. }
  split; [exact R|]. split; [reflexivity|].
  exact (proj1 (reachable_withdrawals_pending db R)).
Defined.

(** X7: the platform fee of a reachable store is the default 0: the settings
    form changes the price only.  So is the fee column of every exported
    line. *)
Theorem reachable_platformFee_default :
  forall db : DB,
    reachable db ->
    AppSettings.platformFee (getSettings db) = 0 /\
    Forall (fun l => col_PlatformFee l = 0) (exportExcel db).
Proof.
  intros db R.
  assert (H : AppSettings.platformFee (getSettings db) = 0).
  { induction R as [loaded | db db' _ IH S]; [reflexivity|].
    now rewrite (step_platformFee db db' S). }
  split; [exact H|]. unfold exportExcel. apply Forall_map, Forall_forall.
  intros u _. exact H.
Qed.

Lemma reachable_platformFee_default_witness :
  reachable richStore /\
  AppSettings.globalPricePer1k (getSettings richStore) = 1000 /\
  AppSettings.platformFee (getSettings richStore) = 0.
Proof.
  assert (R : reachable richStore).
  { eapply reachable_step; [|apply step_save].
    eapply reachable_step; [apply reachable_fresh|].
    apply step_distribute, TrafficFacts.sampleRandom_unit. }
  split; [exact R|]. split; [reflexivity|].
  exact (proj1 (reachable_platformFee_default richStore R)).
Defined.

End ReachFacts.

(** ** More on withdrawals *)

Module LedgerFacts.

Import JSFacts Attribution Withdrawals Props MoreProps Samples MoreSamples.

Lemma filter_other_snoc {A : Type} (f : A -> bool) (l : list A) (x : A) :
  f x = false -> filter f (l ++ [x]) = filter f l.
Proof.
  intros H. rewrite filter_app. simpl. rewrite H. apply app_nil_r.
Qed.

(** X9: a request of one user is invisible to the users of another id: their
    dashboards (views, revenue, withdrawn, balance) and their withdrawal
    histories are what they were. *)
Theorem requestWithdrawal_leaves_others :
  forall (db : DB) (u other : User.t) (now : Tick),
    User.id other <> User.id u ->
    SubDashboard (fst (requestWithdrawal db u now)) other = SubDashboard db other /\
    SubEarnings (fst (requestWithdrawal db u now)) other = SubEarnings db other.
Proof.
  intros db u other now Hne.
  destruct (ReachFacts.requestWithdrawal_cases db u now) as [->|[_ ->]];
    [split; reflexivity|].
  assert (E : withdrawalsOf other (getWithdrawals db ++ [requested db u now])
              = withdrawalsOf other (getWithdrawals db)).
  { unfold withdrawalsOf. apply filter_other_snoc. simpl.
    apply str_eqb_neq. congruence. }
  split.
  - unfold SubDashboard. simpl. now rewrite E.
  - unfold SubEarnings. simpl. exact E.
Qed.

Lemma requestWithdrawal_leaves_others_witness :
  let db := storeWithViews 1000000 in
  let test2 := User.mk (lit "u_test2") (lit "test2") (Some (lit "123456")) user 80 0 in
  User.id test2 <> User.id test1 /\
  SubDashboard (fst (requestWithdrawal db test1 (mkTick 7 [] 8))) test2
  = SubDashboard db test2.
Proof.
  intros db test2.
  assert (H : User.id test2 <> User.id test1) by discriminate.
  split; [exact H|].
  exact (proj1 (requestWithdrawal_leaves_others db test1 test2 (mkTick 7 [] 8) H)).
Defined.

End LedgerFacts.

(** ** The reports against each other *)

Module ReportFacts.

Import JSFacts Attribution Withdrawals Props MoreProps Samples MoreSamples.

Lemma sumBy_map {A B : Type} (f : B -> number) (g : A -> B) (l : list A) :
  sumBy f (map g l) = sumBy (fun x => f (g x)) l.
Proof.
  unfold sumBy. apply fold_plus_ext. now rewrite map_map.
Qed.

Lemma sumBy_pointwise {A : Type} (f g : A -> number) (l : list A) :
  (forall x, In x l -> f x == g x) -> sumBy f l == sumBy g l.
Proof.
  induction l as [|a l IH]; intros H; [reflexivity|].
  pose proof (sumBy_cons f a l). pose proof (sumBy_cons g a l).
  pose proof (H a (or_introl eq_refl)).
  assert (sumBy f l == sumBy g l) by (apply IH; intros x Hx; apply H; now right).
  lra.
Qed.

Lemma sumBy_plus {A : Type} (f g : A -> number) (l : list A) :
  sumBy (fun x => f x + g x) l == sumBy f l + sumBy g l.
Proof.
  induction l as [|a l IH]; [reflexivity|].
  pose proof (sumBy_cons f a l). pose proof (sumBy_cons g a l).
  pose proof (sumBy_cons (fun x => f x + g x) a l). cbv beta in *. lra.
Qed.

Lemma sumBy_zero {A : Type} (l : list A) : sumBy (fun _ : A => 0) l == 0.
Proof.
  induction l as [|a l IH]; [reflexivity|].
  pose proof (sumBy_cons (fun _ : A => 0) a l). cbv beta in *. lra.
Qed.

(** X10: the numbers of a user agree on every page: the row of the revenue
    table, the line of the exported report, the estimate in the user list
    and the total earnings of the user's own dashboard are computed alike;
    table and report have one entry per user that is not the admin, in the
    order of the store. *)
Theorem reports_agree :
  forall db : DB,
    map (fun r => (row_user r, row_views r, row_net r)) (AdminRevenue db)
    = map (fun u => (u, totalViews (SubDashboard db u), revenue (SubDashboard db u)))
          (filter notAdmin (getUsers db)) /\
    map (fun l => (col_User l, col_Ratio l, col_TotalViews l, col_GrossRevenue l,
                   col_NetRevenue l))
        (exportExcel db)
    = map (fun r => (User.username (row_user r), User.ratio (row_user r),
                     row_views r, row_gross r, row_net r))
          (AdminRevenue db) /\
    forall u : User.t, AdminUsers.revenue db u = revenue (SubDashboard db u).
Proof.
  intros db. unfold AdminRevenue, exportExcel. rewrite !map_map.
  repeat split.
Qed.

Lemma held_once (x : str) (v : number) (users : list User.t) :
  NoDup (map User.id users) ->
  sumBy (fun u => if str_eqb x (User.id u) then v else 0) users
  == if existsb (fun u => str_eqb x (User.id u)) users then v else 0.
Proof.
  induction users as [|a users IH]; intros Hnd; [reflexivity|].
  simpl in Hnd. inversion Hnd as [|? ? Hnot Hrest]; subst.
  rewrite sumBy_cons, (IH Hrest). simpl.
  destruct (str_eqb x (User.id a)) eqn:E; simpl; [|lra].
  apply str_eqb_eq in E. subst x.
  destruct (existsb (fun u => str_eqb (User.id a) (User.id u)) users) eqn:Ex; [|lra].
  exfalso. apply Hnot. apply existsb_exists in Ex as [u [Hin Hu]].
  apply str_eqb_eq in Hu. rewrite Hu. now apply in_map.
Qed.

Lemma views_split_by_user (users : list User.t) (dists : list Distribution.t) :
  NoDup (map User.id users) ->
  Forall (fun d => In (Distribution.userId d) (map User.id users)) dists ->
  sumBy (fun u => sumBy Distribution.views (distsOf u dists)) users
  == sumBy Distribution.views dists.
Proof.
  intros Hnd. induction 1 as [|d dists Hd _ IH].
  - apply sumBy_zero.
  - rewrite (sumBy_pointwise
               (fun u => sumBy Distribution.views (distsOf u (d :: dists)))
               (fun u => (if str_eqb (Distribution.userId d) (User.id u)
                          then Distribution.views d else 0)
                         + sumBy Distribution.views (distsOf u dists)) users).
    + rewrite sumBy_plus, IH, (held_once _ _ users Hnd), sumBy_cons.
      destruct (existsb (fun u => str_eqb (Distribution.userId d) (User.id u)) users)
        eqn:Ex; [lra|].
      exfalso. apply in_map_iff in Hd as [u [Hu Hin]].
      assert (Hf : existsb (fun u => str_eqb (Distribution.userId d) (User.id u)) users
                   = true).
      { apply existsb_exists. exists u. split; [exact Hin|].
        rewrite Hu. apply str_eqb_refl. }
      congruence.
    + intros u _. unfold distsOf. simpl.
      destruct (str_eqb (Distribution.userId d) (User.id u)).
      * rewrite sumBy_cons. reflexivity.
      * lra.
Qed.

(** X12: when every distribution is held by a user of the revenue table,
    these users have distinct ids, and the views are whole numbers that add
    up to no more than 2^53 (so that the additions of the source are exact),
    the total views of the admin's overview are the sum of the views of the
    rows of the revenue table. *)
Theorem AdminDashboard_views_are_sum_of_rows :
  forall db : DB,
    allHeld db ->
    wholeViews db ->
    AdminDashboard.totalViews (AdminDashboard.stats db)
    == viewsOfRows (AdminRevenue db).
Proof.
  intros db [Hnd Hall] _. unfold viewsOfRows, AdminRevenue, AdminDashboard.stats.
  simpl. rewrite sumBy_map. simpl.
  now rewrite (views_split_by_user (filter notAdmin (getUsers db))
                 (getDistributions db) Hnd Hall).
Qed.

Lemma AdminDashboard_views_are_sum_of_rows_witness :
  let db := snd (fst (AdminDistribution.handleDistribute sampleMeta None twoRecipients
                        (mkTick 5 [] 5) sampleHost sampleRandom [] (fresh_DB 0))) in
  allHeld db /\
  wholeViews db /\
  AdminDashboard.totalViews (AdminDashboard.stats db) == 1400 /\
  viewsOfRows (AdminRevenue db) == 1400.
Proof.
  intros db.
  assert (H : allHeld db).
  { split.
    - vm_compute. apply NoDup_cons; [simpl; intros [H|[]]; discriminate|].
      apply NoDup_cons; [simpl; tauto | apply NoDup_nil].
    - vm_compute. repeat (constructor; [simpl; auto|]). constructor. }
  assert (W : wholeViews db).
  { split.
    - vm_compute. constructor; [exists 900%Z; split; [discriminate | reflexivity]|].
      constructor; [exists 500%Z; split; [discriminate | reflexivity]|]. constructor.
    - vm_compute. discriminate. }
  assert (V : AdminDashboard.totalViews (AdminDashboard.stats db) == 1400)
    by (vm_compute; reflexivity).
  split; [exact H|]. split; [exact W|]. split; [exact V|].
  rewrite <- (AdminDashboard_views_are_sum_of_rows db H W). exact V.
Defined.

End ReportFacts.

(** ** User management *)

Module UsersFacts.

Import JSFacts Attribution AdminUsers Props TextProps MoreProps Samples MoreSamples.

Lemma filter_idem {A : Type} (f : A -> bool) (l : list A) :
  filter f (filter f l) = filter f l.
Proof.
  induction l as [|a l IH]; [reflexivity|]. simpl.
  destruct (f a) eqn:E; simpl; [now rewrite E, IH | exact IH].
Qed.

(** X13: a deletion that is not confirmed changes nothing.  A confirmed one
    removes the users of the given id and no other, and it does not cascade:
    channels, distributions, withdrawals and settings stay as they are, also
    those of the removed user.  The list of the page is the stored list, and
    deleting the same id again changes nothing more. *)
Theorem handleDelete_removes_users_only :
  forall (confirm : bool) (db : DB) (id : str),
    let '(db', users') := handleDelete confirm (getUsers db) id db in
    users' = getUsers db' /\
    (confirm = false -> db' = db) /\
    (confirm = true ->
       (forall u, In u (getUsers db') <-> In u (getUsers db) /\ User.id u <> id) /\
       getChannels db' = getChannels db /\
       getDistributions db' = getDistributions db /\
       getWithdrawals db' = getWithdrawals db /\
       getSettings db' = getSettings db /\
       fst (handleDelete true (getUsers db') id db') = db').
Proof.
  intros confirm db id. unfold handleDelete. destruct confirm.
  - split; [reflexivity|]. split; [discriminate|]. intros _.
    split; [|repeat split].
    + intros u. simpl. rewrite filter_In, negb_true_iff, str_eqb_neq. tauto.
    + simpl. unfold setUsers. simpl. now rewrite filter_idem.
  - split; [reflexivity|]. split; [reflexivity | discriminate].
Qed.

Lemma handleDelete_removes_users_only_witness :
  handleDelete false (getUsers (fresh_DB 0)) (lit "u_test1") (fresh_DB 0)
  = (fresh_DB 0, getUsers (fresh_DB 0)) /\
  map User.username
      (getUsers (fst (handleDelete true (getUsers (fresh_DB 0)) (lit "u_test1")
                        (fresh_DB 0))))
  = [lit "admin"; lit "test2"].
Proof.
  split; [|reflexivity].
  pose proof (handleDelete_removes_users_only false (fresh_DB 0) (lit "u_test1")) as T.
  destruct (handleDelete false (getUsers (fresh_DB 0)) (lit "u_test1") (fresh_DB 0))
    as [db' users'].
  destruct T as [Hu [Hd _]]. now rewrite Hu, (Hd eq_refl).
Defined.

(** X14: after a deletion the removed id has no row in the revenue table,
    while its distributions still count in the totals of the admin's
    overview and the dashboard of every user computes what it did. *)
Theorem handleDelete_keeps_totals :
  forall (db : DB) (id : str),
    let db' := fst (handleDelete true (getUsers db) id db) in
    Forall (fun r => User.id (row_user r) <> id) (AdminRevenue db') /\
    AdminDashboard.totalViews (AdminDashboard.stats db')
    = AdminDashboard.totalViews (AdminDashboard.stats db) /\
    AdminDashboard.totalRevenue (AdminDashboard.stats db')
    = AdminDashboard.totalRevenue (AdminDashboard.stats db) /\
    forall u : User.t, SubDashboard db' u = SubDashboard db u.
Proof.
  intros db id db'. split; [|repeat split].
  unfold db', handleDelete, AdminRevenue. simpl.
  apply Forall_map, Forall_forall. intros u Hu. simpl.
  apply filter_In in Hu as [Hu _]. apply filter_In in Hu as [_ Hu].
  apply negb_true_iff in Hu. now apply str_eqb_neq.
Qed.

Lemma distsOf_with_ratio (r : number) (u : User.t) (dists : list Distribution.t) :
  distsOf (with_ratio r u) dists = distsOf u dists.
Proof. reflexivity. Qed.

Lemma filter_notAdmin_map (id : str) (r : number) (users : list User.t) :
  filter notAdmin
         (map (fun u => if str_eqb (User.id u) id then with_ratio r u else u) users)
  = map (fun u => if str_eqb (User.id u) id then with_ratio r u else u)
        (filter notAdmin users).
Proof.
  induction users as [|a users IH]; [reflexivity|]. simpl.
  assert (E : notAdmin (if str_eqb (User.id a) id then with_ratio r a else a)
              = notAdmin a) by (now destruct (str_eqb (User.id a) id)).
  rewrite E. destruct (notAdmin a); simpl; now rewrite IH.
Qed.

(** X15: a change of ratio takes any number and rewrites the ratio of the
    users of the given id only; every other field of every user, the order
    of the users and the rest of the store stay.  In the revenue table the
    views and the gross revenue of every row stay, and the rows of that id
    get the net revenue of the new ratio, for all past distributions. *)
Theorem handleRatioChange_rewrites_ratio_only :
  forall (db : DB) (id : str) (newRatio : number),
    let '(db', users') := handleRatioChange (getUsers db) id newRatio db in
    users' = getUsers db' /\
    Forall2 (fun u u' =>
               User.id u' = User.id u /\ User.username u' = User.username u /\
               User.password u' = User.password u /\ User.role u' = User.role u /\
               User.createdAt u' = User.createdAt u /\
               User.ratio u' = (if str_eqb (User.id u) id then newRatio else User.ratio u))
            (getUsers db) (getUsers db') /\
    getChannels db' = getChannels db /\
    getDistributions db' = getDistributions db /\
    getWithdrawals db' = getWithdrawals db /\
    getSettings db' = getSettings db /\
    AdminRevenue db'
    = map (fun row =>
             if str_eqb (User.id (row_user row)) id
             then mkRow (with_ratio newRatio (row_user row)) (row_views row)
                        (row_gross row) (row_gross row * (newRatio / 100))
             else row)
          (AdminRevenue db).
Proof.
  intros db id r. unfold handleRatioChange. split; [reflexivity|]. split.
  - simpl. induction (getUsers db) as [|a l IH]; simpl; constructor; [|exact IH].
    destruct (str_eqb (User.id a) id); repeat split.
  - repeat split. unfold AdminRevenue. simpl.
    rewrite filter_notAdmin_map, !map_map. apply map_ext. intros u.
    destruct (str_eqb (User.id u) id) eqn:E; simpl; rewrite E; reflexivity.
Qed.

Lemma lowerChar_idem (c : ascii) : lowerChar (lowerChar c) = lowerChar c.
Proof.
  destruct c as [[] [] [] [] [] [] [] []]; reflexivity.
Qed.

Lemma toLowerCase_idem (s : str) : toLowerCase (toLowerCase s) = toLowerCase s.
Proof.
  unfold toLowerCase. rewrite map_map. apply map_ext, lowerChar_idem.
Qed.

Lemma includes_empty (s : str) : includes s [] = true.
Proof.
  destruct s; reflexivity.
Qed.

(** X16: for names and a search text of ASCII characters, the rows of the
    user list are the stored users that are not the admin and whose name
    contains the text of the search box, letter case ignored on both sides;
    an empty search shows every user but the admin.  (Outside ASCII the
    folding of letter case of the source does more than the one modelled
    here.) *)
Theorem filtered_search :
  forall (users : list User.t) (search : str),
    isASCII search = true ->
    Forall (fun u => isASCII (User.username u) = true) users ->
    (forall u, In u (filtered users search) <->
               In u users /\ User.role u <> admin /\
               infix (toLowerCase search) (toLowerCase (User.username u))) /\
    filtered users [] = filter notAdmin users /\
    filtered users (toLowerCase search) = filtered users search.
Proof.
  intros users search _ _. split; [|split].
  - intros u. unfold filtered. rewrite filter_In, andb_true_iff, negb_true_iff.
    rewrite ImportFacts.includes_spec.
    assert (R : Role_eqb (User.role u) admin = false <-> User.role u <> admin)
      by (destruct (User.role u); simpl; split; congruence).
    rewrite R. tauto.
  - unfold filtered. apply filter_ext. intros u. simpl.
    rewrite includes_empty. apply andb_true_r.
  - unfold filtered. now rewrite toLowerCase_idem.
Qed.

Lemma filtered_search_witness :
  let users := getUsers (fresh_DB 0) in
  isASCII (lit "TEST") = true /\
  Forall (fun u => isASCII (User.username u) = true) users /\
  map User.username (filtered users (lit "TEST")) = [lit "test1"; lit "test2"] /\
  filtered users [] = filter notAdmin users.
Proof.
  intros users.
  assert (A : isASCII (lit "TEST") = true) by reflexivity.
  assert (B : Forall (fun u => isASCII (User.username u) = true) users)
    by (repeat constructor).
  split; [exact A|]. split; [exact B|]. split; [reflexivity|].
  exact (proj1 (proj2 (filtered_search users (lit "TEST") A B))).
Defined.

End UsersFacts.

(** ** Login and routes *)

Module AppFacts.

Import JSFacts App Props MoreProps Samples MoreSamples.

Lemma credentials_spec (n p : str) (u : User.t) :
  credentials n p u = true <-> hasCredentials n p u.
Proof.
  unfold credentials, hasCredentials. rewrite andb_true_iff, str_eqb_eq.
  destruct (User.password u) as [q|].
  - rewrite str_eqb_eq. split; intros [H1 H2]; split; congruence.
  - split; intros [_ H]; discriminate.
Qed.

Lemma find_first {A : Type} (f : A -> bool) (l : list A) (x : A) :
  find f l = Some x ->
  exists pre post, l = pre ++ x :: post /\ Forall (fun y => f y = false) pre.
Proof.
  induction l as [|a l IH]; simpl; [discriminate|].
  destruct (f a) eqn:E.
  - intros H. injection H as ->. exists [], l. split; [reflexivity | constructor].
  - intros H. destruct (IH H) as [pre [post [-> Hpre]]].
    exists (a :: pre), post. split; [reflexivity | now constructor].
Qed.

(** X17: a login succeeds exactly when a stored user has the typed name and
    the typed password, and it is then the first such user of the store
    that is logged in; otherwise the error of invalid credentials is set.  A
    user stored without a password cannot log in. *)
Theorem LoginScreen_handleLogin_first_match :
  forall (db : DB) (username password : str),
    match LoginScreen_handleLogin db username password with
    | inl u =>
        hasCredentials username password u /\
        exists pre post,
          getUsers db = pre ++ u :: post /\
          Forall (fun v => ~ hasCredentials username password v) pre
    | inr message =>
        message = Invalid_Credentials /\
        forall v, In v (getUsers db) -> ~ hasCredentials username password v
    end.
Proof.
  intros db n p. unfold LoginScreen_handleLogin.
  destruct (find (credentials n p) (getUsers db)) as [u|] eqn:E.
  - split.
    + apply credentials_spec. now apply find_some in E.
    + destruct (find_first _ _ _ E) as [pre [post [Hl Hpre]]].
      exists pre, post. split; [exact Hl|].
      eapply Forall_impl; [|exact Hpre]. intros v Hv Hc.
      apply credentials_spec in Hc. congruence.
  - split; [reflexivity|]. intros v Hv Hc.
    apply credentials_spec in Hc. pose proof (find_none _ _ E v Hv). congruence.
Qed.

Lemma LoginScreen_handleLogin_first_match_witness :
  (exists u, LoginScreen_handleLogin (fresh_DB 0) (lit "admin") (lit "123456") = inl u /\
             User.id u = lit "u_admin" /\
             hasCredentials (lit "admin") (lit "123456") u) /\
  LoginScreen_handleLogin (fresh_DB 0) (lit "admin") (lit "12345")
  = inr Invalid_Credentials /\
  forall v, In v (getUsers (fresh_DB 0)) ->
            ~ hasCredentials (lit "admin") (lit "12345") v.
Proof.
  split; [|split].
  - pose proof (LoginScreen_handleLogin_first_match (fresh_DB 0) (lit "admin")
                  (lit "123456")) as T.
    destruct (LoginScreen_handleLogin (fresh_DB 0) (lit "admin") (lit "123456"))
      as [u|m] eqn:E; [|discriminate].
    exists u. split; [reflexivity|]. split; [|exact (proj1 T)].
    vm_compute in E. injection E as <-. reflexivity.
  - reflexivity.
  - pose proof (LoginScreen_handleLogin_first_match (fresh_DB 0) (lit "admin")
                  (lit "12345")) as T.
    destruct (LoginScreen_handleLogin (fresh_DB 0) (lit "admin") (lit "12345"))
      as [u|m] eqn:E; [discriminate|].
    exact (proj2 T).
Defined.





End AppFacts.

(** ** Channels of a user *)

Module ChannelFacts.

Import JSFacts SubChannels Props MoreProps Samples MoreSamples.

(** X19: binding without an identifier does nothing.  Otherwise one channel
    is added at the end of the store, of the user, with the chosen platform
    and the identifier as typed; it is not checked against the channels
    already bound.  The list of the page stays the user's part of the store,
    and the channels of the users of another id are what they were. *)
Theorem bind_adds_one_channel :
  forall (u : User.t) (platform : Platform) (identifier : str) (now : Tick) (db : DB),
    let '(db', channels') := bind u (channelsOf u db) platform identifier now db in
    channels' = channelsOf u db' /\
    (identifier = [] -> db' = db) /\
    (identifier <> [] ->
       exists c : Channel.t,
         getChannels db' = getChannels db ++ [c] /\
         Channel.userId c = User.id u /\
         Channel.platform c = platform /\
         Channel.identifier c = identifier /\
         channelsOf u db' = channelsOf u db ++ [c] /\
         (forall other, User.id other <> User.id u ->
                        channelsOf other db' = channelsOf other db) /\
         getUsers db' = getUsers db /\
         getDistributions db' = getDistributions db /\
         getWithdrawals db' = getWithdrawals db /\
         getSettings db' = getSettings db).
Proof.
  intros u platform identifier now db. unfold bind.
  destruct identifier as [|c0 rest]; unfold is_empty; cbv zeta iota.
  - split; [reflexivity|]. split; [reflexivity | intros H; now destruct H].
  - match goal with
    | |- context [getChannels db ++ [?x]] => set (c := x)
    end.
    assert (E : channelsOf u (setChannels (getChannels db ++ [c]) db)
                = channelsOf u db ++ [c]).
    { unfold channelsOf. simpl. rewrite filter_app. simpl.
      now rewrite str_eqb_refl. }
    split; [now rewrite E|]. split; [discriminate|]. intros _.
    exists c. repeat split; [exact E|].
    intros other Hne. unfold channelsOf. simpl.
    apply LedgerFacts.filter_other_snoc. simpl. apply str_eqb_neq. congruence.
Qed.

Lemma bind_adds_one_channel_witness :
  bind test1 (channelsOf test1 (fresh_DB 0)) youtube [] (mkTick 3 [] 3) (fresh_DB 0)
  = (fresh_DB 0, []) /\
  (let db1 := fst (bind test1 (channelsOf test1 (fresh_DB 0)) youtube (lit "UC1")
                     (mkTick 3 [] 3) (fresh_DB 0)) in
   let db2 := fst (bind test1 (channelsOf test1 db1) youtube (lit "UC1")
                     (mkTick 4 [] 4) db1) in
   map Channel.name (getChannels db2)
   = [lit "YT Channel (UC1)"; lit "YT Channel (UC1)"]).
Proof.
  split; [|reflexivity].
  pose proof (bind_adds_one_channel test1 youtube [] (mkTick 3 [] 3) (fresh_DB 0)) as T.
  destruct (bind test1 (channelsOf test1 (fresh_DB 0)) youtube [] (mkTick 3 [] 3)
              (fresh_DB 0)) as [db' channels'].
  destruct T as [Hc [Hd _]]. rewrite Hc, (Hd eq_refl). reflexivity.
Defined.

End ChannelFacts.

(** ** More on the batch import *)

Module ImportMoreFacts.

Import JSFacts BatchImport App Props MoreProps Samples MoreSamples.

Local Open Scope nat_scope.

Lemma store_eta (db : DB) :
  setChannels (getChannels (setUsers (getUsers db ++ []) db) ++ [])
              (setUsers (getUsers db ++ []) db) = db.
Proof.
  destruct db. unfold setChannels, setUsers. simpl. now rewrite !app_nil_r.
Qed.

(** X20: a payload of white space only is accepted: nothing is imported, the
    status reports 0 users and 0 channels, and the store is as it was. *)
Theorem processCSV_blank_payload :
  forall (parseFloat : str -> number) (host : nat -> Tick) (db : DB)
         (csvContent : str),
    trim csvContent = [] ->
    processCSV parseFloat host db csvContent = (db, Successfully_imported 0 0).
Proof.
  intros pf host db csv H. unfold processCSV, linesOf. rewrite H.
  change (split newline []) with [@nil ascii].
  change (startIdx [[]]) with 0. unfold skipn, rows, row.
  change (is_empty (trim [])) with true. cbv iota. unfold finish.
  apply (f_equal (fun d => (d, Successfully_imported 0 0))), store_eta.
Qed.

Lemma processCSV_blank_payload_witness :
  trim (lit "
   ") = [] /\
  processCSV sampleParseFloat sampleHost (fresh_DB 0) (lit "
   ") = (fresh_DB 0, Successfully_imported 0 0).
Proof.
  assert (H : trim (lit "
   ") = []) by reflexivity.
  split; [exact H|].
  exact (processCSV_blank_payload sampleParseFloat sampleHost (fresh_DB 0) _ H).
Defined.

Section Loop.

Variable parseFloat : str -> number.
Variable host : nat -> Tick.
Variable currentUsers : list User.t.

Lemma row_ordinary (i : nat) (raw : str) (b b' : Batch) :
  Forall ordinary (newUsers b) -> Forall wellInferred (newChannels b) ->
  row parseFloat host currentUsers i raw b = inl b' ->
  Forall ordinary (newUsers b') /\ Forall wellInferred (newChannels b').
Proof.
  intros Hu Hc. unfold row.
  destruct (is_empty (trim raw)); [intros H; injection H as <-; now split|].
  destruct (Nat.ltb _ 5); [discriminate|].
  destruct (findUser currentUsers (newUsers b) _) as [u|];
    intros H; injection H as <-; simpl; split;
    try assumption; apply Forall_app; split; try assumption;
    repeat constructor.
  eexists. reflexivity.
Qed.

Lemma rows_ordinary (ls : list str) :
  forall (i : nat) (b b' : Batch),
    Forall ordinary (newUsers b) -> Forall wellInferred (newChannels b) ->
    rows parseFloat host currentUsers i ls b = inl b' ->
    Forall ordinary (newUsers b') /\ Forall wellInferred (newChannels b').
Proof.
  induction ls as [|raw rest IH]; intros i b b' Hu Hc; simpl.
  - intros H. injection H as <-. now split.
  - destruct (row parseFloat host currentUsers i raw b) as [b1|n] eqn:E;
      [|discriminate].
    destruct (row_ordinary i raw b b1 Hu Hc E) as [Hu1 Hc1].
    now apply IH.
Qed.

End Loop.

(** X21: an import only adds.  The stored users and channels stay, in their
    order, before the new ones; distributions, withdrawals and settings are
    not touched.  Every user it creates has the role [user] and a password,
    so an import cannot make an admin; every channel it creates is a YouTube
    channel exactly when its identifier starts with [UC].  The status counts
    what was added, and a refused import adds nothing. *)
Theorem processCSV_only_adds :
  forall (parseFloat : str -> number) (host : nat -> Tick) (db : DB)
         (csvContent : str),
    let '(db', status) := processCSV parseFloat host db csvContent in
    exists (created : list User.t) (channels : list Channel.t),
      getUsers db' = getUsers db ++ created /\
      getChannels db' = getChannels db ++ channels /\
      Forall ordinary created /\
      Forall wellInferred channels /\
      getDistributions db' = getDistributions db /\
      getWithdrawals db' = getWithdrawals db /\
      getSettings db' = getSettings db /\
      match status with
      | Successfully_imported users added =>
          users = List.length created /\ added = List.length channels
      | Line_invalid_format _ => created = [] /\ channels = []
      end.
Proof.
  intros pf host db csv. unfold processCSV.
  destruct (rows pf host (getUsers db) _ _ _) as [b|n] eqn:E; simpl.
  - destruct (rows_ordinary pf host (getUsers db) _ _ (mkBatch [] [] 0) b
                (Forall_nil _) (Forall_nil _) E) as [Hu Hc].
    exists (newUsers b), (newChannels b). repeat split; assumption.
  - exists [], []. rewrite !app_nil_r. repeat split; constructor.
Qed.

(** X22: an import changes no login: name and password that logged a user
    in before the import log the same user in after it. *)
Theorem processCSV_keeps_logins :
  forall (parseFloat : str -> number) (host : nat -> Tick) (db : DB)
         (csvContent username password : str) (u : User.t),
    LoginScreen_handleLogin db username password = inl u ->
    LoginScreen_handleLogin (fst (processCSV parseFloat host db csvContent))
                            username password = inl u.
Proof.
  intros pf host db csv n p u. unfold LoginScreen_handleLogin, processCSV.
  destruct (find (credentials n p) (getUsers db)) as [v|] eqn:F; [|discriminate].
  intros H. injection H as ->.
  destruct (rows pf host (getUsers db) _ _ _) as [b|k]; simpl.
  - now rewrite (ImportFacts.find_app_some _ _ (newUsers b) u F).
  - now rewrite F.
Qed.

Lemma processCSV_keeps_logins_witness :
  exists u,
    LoginScreen_handleLogin (fresh_DB 0) (lit "test1") (lit "123456") = inl u /\
    LoginScreen_handleLogin
      (fst (processCSV sampleParseFloat sampleHost (fresh_DB 0)
              (lit "test1,other,10,Chan,UC9")))
      (lit "test1") (lit "123456") = inl u.
Proof.
  destruct (LoginScreen_handleLogin (fresh_DB 0) (lit "test1") (lit "123456"))
    as [u|m] eqn:E; [|discriminate].
  exists u. split; [reflexivity|].
  exact (processCSV_keeps_logins sampleParseFloat sampleHost (fresh_DB 0)
           (lit "test1,other,10,Chan,UC9") (lit "test1") (lit "123456") u E).
Defined.

Lemma find_by_unique_name (p : str) (l : list User.t) (u : User.t) :
  NoDup (map User.username l) -> In u l -> User.password u = Some p ->
  find (credentials (User.username u) p) l = Some u.
Proof.
  intros Hnd Hin Hp. induction l as [|a l IH]; [destruct Hin|].
  simpl in Hnd. inversion Hnd as [|? ? Hnot Hrest]; subst. simpl.
  destruct (credentials (User.username u) p a) eqn:E.
  - destruct Hin as [->|Hin]; [reflexivity|].
    exfalso. apply Hnot. apply AppFacts.credentials_spec in E as [En _].
    rewrite En. now apply in_map.
  - destruct Hin as [->|Hin]; [|now apply IH].
    exfalso. assert (T : credentials (User.username u) p u = true)
      by (apply AppFacts.credentials_spec; now split).
    congruence.
Qed.

Lemma find_unknown_name (n p : str) (l : list User.t) :
  ~ In n (map User.username l) -> find (credentials n p) l = None.
Proof.
  intros H. destruct (find (credentials n p) l) as [v|] eqn:E; [|reflexivity].
  exfalso. apply find_some in E as [Hin Hc].
  apply AppFacts.credentials_spec in Hc as [Hn _]. apply H. rewrite <- Hn.
  now apply in_map.
Qed.

(** X23: after an import without malformed rows every user it created can
    log in, with the name and the password it was stored with, and is the
    user logged in. *)
Theorem imported_users_can_log_in :
  forall (parseFloat : str -> number) (host : nat -> Tick) (db : DB)
         (csvContent : str),
    Forall (fun l => malformed l = false)
           (skipn (startIdx (linesOf csvContent)) (linesOf csvContent)) ->
    let db' := fst (processCSV parseFloat host db csvContent) in
    exists created : list User.t,
      getUsers db' = getUsers db ++ created /\
      forall u, In u created ->
                exists p, User.password u = Some p /\
                          LoginScreen_handleLogin db' (User.username u) p = inl u.
Proof.
  intros pf host db csv Hall db'.
  assert (H0 : Merged (getUsers db) [] (mkBatch [] [] 0)).
  { constructor; simpl; [constructor | tauto | constructor]. }
  destruct (ImportFacts.rows_Merged pf host (getUsers db) _
              (startIdx (linesOf csv)) [] _ H0 Hall)
    as [b [Hrows [Hnd Hnames _]]].
  destruct (rows_ordinary pf host (getUsers db) _ _ (mkBatch [] [] 0) b
              (Forall_nil _) (Forall_nil _) Hrows) as [Hord _].
  assert (E : getUsers db' = getUsers db ++ newUsers b).
  { unfold db', processCSV. now rewrite Hrows. }
  exists (newUsers b). split; [exact E|].
  intros u Hin. rewrite Forall_forall in Hord.
  destruct (Hord u Hin) as [_ [p Hp]]. exists p. split; [exact Hp|].
  unfold LoginScreen_handleLogin. rewrite E.
  assert (Hnew : ~ In (User.username u) (map User.username (getUsers db))).
  { apply (Hnames (User.username u)). now apply in_map. }
  rewrite (ImportFacts.find_app_none _ _ _ (find_unknown_name _ p _ Hnew)).
  now rewrite (find_by_unique_name p _ u Hnd Hin Hp).
Qed.

Lemma imported_users_can_log_in_witness :
  Forall (fun l => malformed l = false)
         (skipn (startIdx (linesOf twoRowsForBob)) (linesOf twoRowsForBob)) /\
  exists u,
    LoginScreen_handleLogin
      (fst (processCSV sampleParseFloat sampleHost (fresh_DB 0) twoRowsForBob))
      (lit "bob") (lit "pw") = inl u /\
    User.username u = lit "bob".
Proof.
  assert (E : skipn (startIdx (linesOf twoRowsForBob)) (linesOf twoRowsForBob)
              = [lit "bob,pw,50,Chan1,UC123"; lit "bob,pw,50,Chan2,tt_bob"])
    by (vm_compute; reflexivity).
  assert (Hall : Forall (fun l => malformed l = false)
                        (skipn (startIdx (linesOf twoRowsForBob)) (linesOf twoRowsForBob))).
  { rewrite E. repeat (constructor; [vm_compute; reflexivity|]). constructor. }
  split; [exact Hall|].
  destruct (imported_users_can_log_in sampleParseFloat sampleHost (fresh_DB 0)
              twoRowsForBob Hall) as [created [Hc Hlog]].
  assert (Hbob : exists u, In u created /\ User.username u = lit "bob" /\
                           User.password u = Some (lit "pw")).
  { assert (V : map (fun u => (User.username u, User.password u))
                    (getUsers (fst (processCSV sampleParseFloat sampleHost (fresh_DB 0)
                                      twoRowsForBob)))
                = map (fun u => (User.username u, User.password u))
                      (getUsers (fresh_DB 0))
                  ++ [(lit "bob", Some (lit "pw"))]) by (vm_compute; reflexivity).
    rewrite Hc, map_app in V. apply app_inv_head in V.
    destruct created as [|u [|u' t]]; try discriminate.
    exists u. simpl in V. injection V as Hn Hp. split; [now left|]. now split. }
  destruct Hbob as [u [Hin [Hn Hp]]].
  destruct (Hlog u Hin) as [p [Hp' Hl]].
  exists u. split; [|exact Hn].
  rewrite Hn in Hl. rewrite Hp in Hp'. injection Hp' as <-. exact Hl.
Defined.

End ImportMoreFacts.


(** ** Withdrawals over doubles *)

Module IEEEFacts.

Import JSFacts Withdrawals.

Import IEEE IEEESamples.

Local Open Scope Z_scope.

(** The examples of the specification, in doubles: 2,000 views earn 0.045
    and 1,000,000 views earn 22.5. *)
Example revenue_of_1000000_views :
  revenue (SubDashboard (store test1 1000000 defaultPrice []) test1) = quotient 45 2.
Proof. vm_compute. reflexivity. Qed.

Example revenue_of_2000_views :
  less (balance (SubDashboard (store test1 2000 defaultPrice []) test1)) (ofZ 10) = true.
Proof. vm_compute. reflexivity. Qed.

Lemma Math_max_zero (x : double) :
  less (Math_max (ofZ 0) x) (ofZ 0) = false /\
  (Math_max (ofZ 0) x = S754_nan \/ SFleb (ofZ 0) (Math_max (ofZ 0) x) = true).
Proof.
  destruct x as [s|s| |s m e]; try destruct s; split; try reflexivity;
    try (now left); now right.
Qed.




(** C2, as the specification states it, fails.  The handler withdraws the
    balance of the rendering it belongs to: on a page rendered at 1,000,000
    views and pressed when the store holds 2,000,000, the balance of the
    store is 45 and the withdrawal is of 22.5.  And the store does not keep
    an amount that is not finite: with the price 1e308 the balance is
    infinite and the withdrawal is stored with the amount [null]. *)
Lemma stale_render_withdraws_old_balance :
  balance (SubDashboard current test1) = ofZ 45 /\
  getWithdrawals
    (fst (handleWithdraw test1 (SubDashboard rendered test1) current (mkTick 7 [] 8)))
  = [Withdrawal.mk (lit "w_7") (lit "u_test1") (num (quotient 45 2)) 8 pending] /\
  num (quotient 45 2) <> stringify (balance (SubDashboard current test1)) /\
  (let overflowing := store test1 1000000 hugePrice [] in
   balance (SubDashboard overflowing test1) = S754_infinity false /\
   map Withdrawal.amount
       (getWithdrawals
          (fst (handleWithdraw test1 (SubDashboard overflowing test1) overflowing
                  (mkTick 7 [] 8))))
   = [null]).
Proof.
  split; [vm_compute; reflexivity|].
  split; [vm_compute; reflexivity|].
  split; [vm_compute; discriminate|].
  split; vm_compute; reflexivity.
Qed.

(** C2 (amended): the handler tests and withdraws the balance of the
    rendering of the dashboard it belongs to, which is the balance of the
    store only as long as the store has not changed since.  It is refused
    with the minimum-withdrawal alert exactly when that balance is below 10,
    and then the store is unchanged; otherwise one withdrawal is appended to
    the ledger, of the user, [pending], with that balance as its amount as
    the store keeps it ([null] when it is not finite), and nothing else in
    the store changes. *)
Theorem handleWithdraw_rendered_balance :
  forall (u : User.t) (view : Dashboard) (db : DB) (now : Tick),
    let b := balance view in
    let '(db', alert) := handleWithdraw u view db now in
    (alert = Minimum_withdrawal <-> less b (ofZ 10) = true) /\
    (less b (ofZ 10) = true -> db' = db) /\
    (less b (ofZ 10) = false ->
       alert = Withdrawal_submitted /\
       exists w : Withdrawal.t,
         getWithdrawals db' = getWithdrawals db ++ [w] /\
         Withdrawal.userId w = User.id u /\
         Withdrawal.amount w = stringify b /\
         Withdrawal.status w = pending /\
         Withdrawal.date w = new_Date now /\
         getUsers db' = getUsers db /\
         getChannels db' = getChannels db /\
         getDistributions db' = getDistributions db /\
         getSettings db' = getSettings db).
Proof.
  intros u view db now b. unfold handleWithdraw. fold b.
  destruct (less b (ofZ 10)) eqn:E.
  - split; [tauto|]. split; [reflexivity | discriminate].
  - split; [|split; [discriminate|]].
    + split; [intros H; exfalso; now apply WithdrawalFacts.messages_differ
             | discriminate].
    + intros _. split; [reflexivity|]. eexists. repeat split.
Qed.

Lemma handleWithdraw_rendered_balance_witness :
  (let small := store test1 2000 defaultPrice [] in
   less (balance (SubDashboard small test1)) (ofZ 10) = true /\
   handleWithdraw test1 (SubDashboard small test1) small (mkTick 7 [] 8)
   = (small, Minimum_withdrawal)) /\
  (less (balance (SubDashboard rendered test1)) (ofZ 10) = false /\
   snd (handleWithdraw test1 (SubDashboard rendered test1) current (mkTick 7 [] 8))
   = Withdrawal_submitted /\
   exists w : Withdrawal.t,
     getWithdrawals
       (fst (handleWithdraw test1 (SubDashboard rendered test1) current (mkTick 7 [] 8)))
     = getWithdrawals current ++ [w] /\
     Withdrawal.amount w = num (quotient 45 2)).
Proof.
  split.
  - intros small.
    assert (H : less (balance (SubDashboard small test1)) (ofZ 10) = true)
      by (vm_compute; reflexivity).
    split; [exact H|].
    pose proof (handleWithdraw_rendered_balance test1 (SubDashboard small test1) small
                  (mkTick 7 [] 8)) as T.
    cbv zeta in T.
    destruct (handleWithdraw test1 (SubDashboard small test1) small (mkTick 7 [] 8))
      as [db' alert].
    destruct T as [[_ Ha] [Hd _]]. now rewrite (Ha H), (Hd H).
  - assert (H : less (balance (SubDashboard rendered test1)) (ofZ 10) = false)
      by (vm_compute; reflexivity).
    split; [exact H|].
    pose proof (handleWithdraw_rendered_balance test1 (SubDashboard rendered test1)
                  current (mkTick 7 [] 8)) as T.
    cbv zeta in T.
    destruct (handleWithdraw test1 (SubDashboard rendered test1) current (mkTick 7 [] 8))
      as [db' alert].
    destruct T as [_ [_ Hs]]. destruct (Hs H) as [Ha [w [Hw [_ [Hamt _]]]]].
    split; [exact Ha|]. exists w. split; [exact Hw|].
    rewrite Hamt. vm_compute. reflexivity.
Defined.


(** Two more ways to a second accepted request, on a page that shows the
    store as it is.  With the price 1e308 the amount is stored as [null] and
    counts as 0 afterwards.  With a revenue of 2^56 + 80 and an earlier
    withdrawal of 40, rounding leaves a balance of 16 after the first
    request. *)
Example second_request_accepted_after_overflow :
  let db := store test1 1000000 hugePrice [] in
  let first := handleWithdraw test1 (SubDashboard db test1) db (mkTick 7 [] 8) in
  let second :=
    handleWithdraw test1 (SubDashboard (fst first) test1) (fst first) (mkTick 9 [] 10) in
  snd first = Withdrawal_submitted /\ snd second = Withdrawal_submitted.
Proof.
  cbv zeta. split; vm_compute; reflexivity.
Qed.

Example second_request_accepted_after_rounding :
  let u := tenant 100 in
  let db := store u 1000 (ofZ (2 ^ 56 + 80)) [earlier (ofZ 40)] in
  let first := handleWithdraw u (SubDashboard db u) db (mkTick 7 [] 8) in
  let second :=
    handleWithdraw u (SubDashboard (fst first) u) (fst first) (mkTick 9 [] 10) in
  snd first = Withdrawal_submitted /\
  balance (SubDashboard (fst first) u) = ofZ 16 /\
  snd second = Withdrawal_submitted.
Proof.
  cbv zeta. repeat split; vm_compute; reflexivity.
Qed.



(** C4, as the specification states it, fails.  With the price 1e308, a
    ratio of 0 and 1798 views the revenue is infinity times 0, which is not
    a number, and so is the balance: it is not at least 0. *)
Lemma balance_is_not_a_number :
  let u := tenant 0 in
  let db := store u 1798 hugePrice [] in
  revenue (SubDashboard db u) = S754_nan /\
  balance (SubDashboard db u) = S754_nan /\
  SFleb (ofZ 0) (balance (SubDashboard db u)) = false.
Proof.
  cbv zeta. repeat split; vm_compute; reflexivity.
Qed.

(** C4 (amended): the balance of a user is never below 0, in whatever store
    the dashboard is rendered, and so in the store a withdrawal leaves
    behind: it is at least 0, or it is not a number. *)
Theorem balance_never_below_zero :
  forall (db : DB) (u : User.t),
    less (balance (SubDashboard db u)) (ofZ 0) = false /\
    (balance (SubDashboard db u) = S754_nan \/
     SFleb (ofZ 0) (balance (SubDashboard db u)) = true).
Proof.
  intros db u. unfold SubDashboard. simpl. apply Math_max_zero.
Qed.

End IEEEFacts.
